(** * node-di-container-lambda: service container and Lambda proxy wrapper

    A shallow embedding of the TypeScript sources

      - [src/Error.ts]        (NameAwareError)
      - [src/Environment.ts]  (Environment, MissingEnvironmentVariableError)
      - [src/Container.ts]    (Container.service, ContainerMissingServiceError)
      - [src/http/response.ts] (ResponseStatusCode, ResponseHeader, ResponseKind)
      - [src/Lambda.ts]       (createLambdaRequest, createLambdaProxyResponse,
                               LambdaWrapper.restApiProxy, LambdaWrapper.handle)

    The repository carries two variants of [Lambda.ts]: the one that checks the
    [content-type] header and has no error handler (module [Lambda], from
    src/Lambda.ts) and the one with [registerErrorHandler] and an unconditional
    body parse (module [Lambda_part001], from unnamed/part_001).
    [Container.service] has the same body in both variants.

    Conventions of the embedding.
      - A JavaScript string is a [string]: the sequence of its UTF-16 code
        units, restricted to code units below 256.
      - A JavaScript object used as a dictionary is a [gmap string _] of its
        own properties, read with [js_get]: a name that is not an own
        property reads as the member of [Object.prototype] of that name
        ([constructor], [toString], ...) or, when there is none, as
        [undefined].
      - [async] functions are computations over an explicit [store]; a
        rejected promise and a thrown exception are both [Throw t], except
        where the source tells them apart (see [call]).  What is thrown is
        an [Error] object, [null], [undefined] or a string.  Calls are made
        one after the other: a call is settled before the next one starts.
      - Numbers are integers.  A response payload ([data: any]) is JSON
        data or [undefined]; functions, symbols, big integers and cyclic
        objects are outside of the embedding. *)

From Stdlib Require Import ZArith Ascii String List Lia DecimalString.
From stdpp Require Import base option gmap strings list.

Set Warnings "-register-all".
Local Open Scope string_scope.

(** ** Strings *)

(** The double-quote character, code unit 34. *)
Definition dquote : string := String "034" EmptyString.

(** [Array.prototype.join(' ')]. *)
Fixpoint join (sep : string) (parts : list string) : string :=
  match parts with
  | [] => EmptyString
  | [p] => p
  | p :: rest => p ++ sep ++ join sep rest
  end.

(** [String(n)] for a non-negative integer [n]. *)
Definition String_of_nat (n : nat) : string :=
  NilEmpty.string_of_uint (Nat.to_uint n).

(** The line feed, code unit 10. *)
Definition newline : string := String "010" EmptyString.

(** One more code unit in front of the first piece. *)
Definition extend_first (c : ascii) (pieces : list string) : list string :=
  match pieces with
  | piece :: rest => String c piece :: rest
  | [] => [String c EmptyString]
  end.

(** [s.split('\n')]: the pieces of [s] between line feeds (always at least
    one piece). *)
Fixpoint split_lines (s : string) : list string :=
  match s with
  | EmptyString => [EmptyString]
  | String c rest =>
      if Ascii.eqb c "010" then EmptyString :: split_lines rest
      else extend_first c (split_lines rest)
  end.

(** Number of bytes of the UTF-8 encoding of a string of code units below
    256: one byte below 128, two bytes from 128 on. *)
Fixpoint utf8_length (s : string) : nat :=
  match s with
  | EmptyString => 0
  | String c rest =>
      (if (nat_of_ascii c <? 128)%nat then 1 else 2) + utf8_length rest
  end.

(** [haystack.includes(needle)]. *)
Fixpoint includes (needle haystack : string) : bool :=
  String.prefix needle haystack
  || match haystack with
     | EmptyString => false
     | String _ rest => includes needle rest
     end.

(** ** Values *)

(** Service instances and environment values.  An object is known by its
    reference only: [VRef l] and [VRef l'] are the same object iff [l = l'].
    [VInherited name] is the member [name] of [Object.prototype];
    [VContainer] is the container itself, which an initiator is handed and
    may hand back. *)
Inductive value : Type :=
  | VUndefined
  | VNull
  | VBool (b : bool)
  | VNum (n : Z)
  | VStr (s : string)
  | VRef (l : nat)
  | VInherited (name : string)
  | VContainer.

(** [v !== undefined]. *)
Definition defined (v : value) : bool :=
  match v with VUndefined => false | _ => true end.

(** The property names of [Object.prototype], which every plain object
    inherits. *)
Definition Object_prototype_names : list string :=
  [ "constructor"; "hasOwnProperty"; "isPrototypeOf"; "propertyIsEnumerable";
    "toLocaleString"; "toString"; "valueOf"; "__proto__";
    "__defineGetter__"; "__defineSetter__"; "__lookupGetter__";
    "__lookupSetter__" ].

Definition is_inherited (key : string) : bool :=
  existsb (String.eqb key) Object_prototype_names.

(** [obj[key]] on a plain object ([{}], an object literal, [process.env])
    with the own properties [obj]: the own property when there is one, else
    what the object inherits. *)
Definition js_get (obj : gmap string value) (key : string) : value :=
  match obj !! key with
  | Some v => v
  | None => if is_inherited key then VInherited key else VUndefined
  end.

(** JSON-like data: request bodies and response payloads.  An object is the
    list of its own enumerable properties in enumeration order. *)
Inductive jsval : Type :=
  | JUndefined
  | JNull
  | JBool (b : bool)
  | JNum (n : Z)
  | JStr (s : string)
  | JArr (items : list jsval)
  | JObj (fields : list (string * jsval)).

(** ** Errors (src/Error.ts) *)

(** An [Error] object: [name], [message], the optional [stack], and the
    [error] property that [NameAwareError] adds. *)
Record JsError : Type := mkJsError {
  e_name : string;
  e_message : string;
  e_stack : option string;
  e_error : option string;
}.

(** What a [throw] statement is given: an [Error] object, [null],
    [undefined], or a string. *)
Inductive thrown : Type :=
  | ErrorObject (e : JsError)
  | ThrownNull
  | ThrownUndefined
  | ThrownString (s : string).
Coercion ErrorObject : JsError >-> thrown.

Inductive result (A : Type) : Type :=
  | Ok (a : A)
  | Throw (t : thrown).
Arguments Ok {A} a.
Arguments Throw {A} t.

Definition bind {A B} (r : result A) (k : A -> result B) : result B :=
  match r with
  | Ok a => k a
  | Throw t => Throw t
  end.

(** [try { body } catch (error) { handler }]. *)
Definition try_catch {A} (body : result A) (handler : thrown -> result A) : result A :=
  match body with
  | Ok a => Ok a
  | Throw t => handler t
  end.

(** What the JavaScript engine supplies: [JSON.parse]; the text that
    [error.stack] reads for an error with the given name and message (its
    first line is made from both when the property is first read, which
    here is in a [catch] block, after the constructor has set the name); the
    [TypeError] raised by reading [length] of [undefined]; the [TypeError]
    raised by reading [name] of [null] ([true]) or of [undefined] ([false]);
    and what a member of [Object.prototype] does when it is called as a
    plain function with the container as its argument (for [__proto__],
    which is no function, the [TypeError] of the call). *)
Class Runtime : Type := {
  JSON_parse : string -> result jsval;
  captureStackTrace : string -> string -> option string;
  TypeError_length_of_undefined : JsError;
  TypeError_name_of_nullish : bool -> JsError;
  call_inherited : string -> result value;
}.

(** [new Error(message)]. *)
Definition Error {rt : Runtime} (message : string) : JsError :=
  {| e_name := "Error"; e_message := message;
     e_stack := captureStackTrace "Error" message; e_error := None |}.

(** [new NameAwareError(name, message)]: [super(message)], then
    [this.name = name; this.error = message]. *)
Definition NameAwareError {rt : Runtime} (name message : string) : JsError :=
  {| e_name := name; e_message := message;
     e_stack := captureStackTrace name message; e_error := Some message |}.

(** ** JSON.stringify *)

Definition hex_digit (n : nat) : ascii :=
  nth n (list_ascii_of_string "0123456789abcdef") "0"%char.

(** One code unit inside a JSON string literal (QuoteJSONString). *)
Definition quote_code_unit (c : ascii) : string :=
  let n := nat_of_ascii c in
  if (n =? 34)%nat then "\" ++ dquote
  else if (n =? 92)%nat then "\\"
  else if (n =? 8)%nat then "\b"
  else if (n =? 9)%nat then "\t"
  else if (n =? 10)%nat then "\n"
  else if (n =? 12)%nat then "\f"
  else if (n =? 13)%nat then "\r"
  else if (n <? 32)%nat then
    "\u00" ++ String (hex_digit (n / 16)) (String (hex_digit (n mod 16)) EmptyString)
  else String c EmptyString.

Fixpoint quote_code_units (s : string) : string :=
  match s with
  | EmptyString => EmptyString
  | String c rest => quote_code_unit c ++ quote_code_units rest
  end.

Definition QuoteJSONString (s : string) : string :=
  dquote ++ quote_code_units s ++ dquote.

(** [String(n)] for an integer. *)
Definition Number_toString (n : Z) : string :=
  if (n <? 0)%Z then "-" ++ String_of_nat (Z.abs_nat n)
  else String_of_nat (Z.to_nat n).

(** [JSON.stringify(v)]: [None] is the result [undefined].  Inside an array
    [undefined] is written [null]; inside an object the property is left
    out. *)
Fixpoint JSON_stringify (v : jsval) : option string :=
  match v with
  | JUndefined => None
  | JNull => Some "null"
  | JBool b => Some (if b then "true" else "false")
  | JNum n => Some (Number_toString n)
  | JStr s => Some (QuoteJSONString s)
  | JArr items =>
      Some ("[" ++ join "," (map (λ item, default "null" (JSON_stringify item)) items) ++ "]")
  | JObj fields =>
      let properties :=
        (fix properties (fields : list (string * jsval)) : list string :=
           match fields with
           | [] => []
           | (key, item) :: rest =>
               match JSON_stringify item with
               | Some text => (QuoteJSONString key ++ ":" ++ text) :: properties rest
               | None => properties rest
               end
           end) fields in
      Some ("{" ++ join "," properties ++ "}")
  end.

(** ** Environment (src/Environment.ts) *)

Definition MissingEnvironmentVariableErrorName : string :=
  "MissingEnvironmentVariableError".

Definition MissingEnvironmentVariableError {rt : Runtime} (key : string) : JsError :=
  let message := "Cannot find " ++ dquote ++ key ++ dquote ++ " in the environment!" in
  NameAwareError MissingEnvironmentVariableErrorName message.

Record Environment : Type := { search : gmap string value }.

Definition Environment_get {rt : Runtime} (env : Environment) (key : string)
    : result value :=
  let value := js_get (search env) key in
  if defined value then Ok value
  else Throw (MissingEnvironmentVariableError key).

(** ** Container (src/Container.ts) *)

(** The body of an [async] function that is handed the container: an
    initiator or a caller-supplied handler.  It can finish with a value,
    throw, [await container.service(name)] (and catch what that rejects
    with), call [container.env(key)] (and catch what that throws),
    construct a fresh object such as [new S3()], or await a promise that is
    never settled. *)
Inductive action (R : Type) : Type :=
  | Return (r : R)
  | Raise (t : thrown)
  | AwaitService (name : string) (k : result value -> action R)
  | CallEnv (key : string) (k : result value -> action R)
  | NewObject (k : nat -> action R)
  | Pending.
Arguments Return {R} r.
Arguments Raise {R} t.
Arguments Pending {R}.
Arguments AwaitService {R} name k.
Arguments CallEnv {R} key k.
Arguments NewObject {R} k.

(** The services an [async] body may request, on any of its paths. *)
Inductive requests {R : Type} : action R -> string -> Prop :=
  | requests_here name k : requests (AwaitService name k) name
  | requests_after_service name k r m :
      requests (k r) m -> requests (AwaitService name k) m
  | requests_after_env key k r m :
      requests (k r) m -> requests (CallEnv key k) m
  | requests_after_new k l m :
      requests (k l) m -> requests (NewObject k) m.

(** An [async] body that, on one of its paths, awaits a promise that is
    never settled. *)
Inductive stalls {R : Type} : action R -> Prop :=
  | stalls_here : stalls Pending
  | stalls_after_service name k r : stalls (k r) -> stalls (AwaitService name k)
  | stalls_after_env key k r : stalls (k r) -> stalls (CallEnv key k)
  | stalls_after_new k l : stalls (k l) -> stalls (NewObject k).

(** The immutable fields of a [Container] that [service] and [env] read; an
    initiator is [(container) => Promise<S>].  (One variant of the class
    also carries a public [parameters] field, which neither method reads.) *)
Record Container : Type := {
  environment : Environment;
  initiator : gmap string (action value);
}.

(** The initiators depend on each other without a cycle: [rank] orders them
    so that an initiator only requests services of lower rank. *)
Definition acyclic (c : Container) (rank : string -> nat) : Prop :=
  ∀ n init m, initiator c !! n = Some init -> requests init m -> rank m < rank n.

(** The mutable part of the program: the container's [cache] object, the
    allocator of object references, and two logs kept for the statements
    below: the names whose initiator was invoked and the errors handed to
    the registered error handler (both most recent first). *)
Record store : Type := {
  cache : gmap string value;
  next_ref : nat;
  invoked : list string;
  notified : list thrown;
}.

(** [new Container(environment, initiator)]: [this.cache = {}]. *)
Definition new_store : store :=
  {| cache := ∅; next_ref := 0; invoked := []; notified := [] |}.

Definition set_cache (service : string) (constructed : value) (st : store) : store :=
  {| cache := <[service := constructed]> (cache st); next_ref := next_ref st;
     invoked := invoked st; notified := notified st |}.

Definition log_invoked (service : string) (st : store) : store :=
  {| cache := cache st; next_ref := next_ref st;
     invoked := service :: invoked st; notified := notified st |}.

Definition alloc (st : store) : nat * store :=
  (next_ref st,
   {| cache := cache st; next_ref := S (next_ref st);
      invoked := invoked st; notified := notified st |}).

Definition log_notified (t : thrown) (st : store) : store :=
  {| cache := cache st; next_ref := next_ref st;
     invoked := invoked st; notified := t :: notified st |}.

(** How many times [service] occurs in a log of invoked initiators. *)
Definition occurrences (service : string) (log : list string) : nat :=
  length (filter (λ n, n = service) log).

(** How many times the initiator of [service] has been invoked. *)
Definition invocations (service : string) (st : store) : nat :=
  occurrences service (invoked st).

(** Computations over the store that may throw; [None]: not settled. *)
Definition M (A : Type) : Type := store -> option (result A * store).

Definition ret {A} (a : A) : M A := λ st, Some (Ok a, st).
Definition throw {A} (t : thrown) : M A := λ st, Some (Throw t, st).
Definition lift {A} (r : result A) : M A := λ st, Some (r, st).

Definition bindM {A B} (m : M A) (k : A -> M B) : M B := λ st,
  match m st with
  | Some (Ok a, st') => k a st'
  | Some (Throw e, st') => Some (Throw e, st')
  | None => None
  end.

(** [try { m } catch (caught) { h caught }] around awaited code. *)
Definition catchM {A} (m : M A) (h : thrown -> M A) : M A := λ st,
  match m st with
  | Some (Ok a, st') => Some (Ok a, st')
  | Some (Throw e, st') => h e st'
  | None => None
  end.

Notation "x <- m ;; k" := (bindM m (λ x, k))
  (at level 100, m at next level, right associativity).

Definition ContainerMissingServiceErrorName : string :=
  "ContainerMissingServiceInitiatorError".

Definition ContainerMissingServiceError {rt : Runtime} (service : string) : JsError :=
  let message := join " " [
    "The service " ++ dquote ++ service ++ dquote ++ " has no initiator provided.";
    "Please provide an initiator for this service before calling it."
  ] in
  NameAwareError ContainerMissingServiceErrorName message.

(** [Container.env]. *)
Definition env {rt : Runtime} (c : Container) (key : string) : result value :=
  Environment_get (environment c) key.

(** Running an [async] body.  [svc] is [container.service]. *)
Fixpoint exec {rt : Runtime} {R} (svc : string -> M value)
    (c : Container) (a : action R) : M R := λ st,
  match a with
  | Return r => Some (Ok r, st)
  | Raise e => Some (Throw e, st)
  | AwaitService name k =>
      match svc name st with
      | Some (r, st') => exec svc c (k r) st'
      | None => None
      end
  | CallEnv key k => exec svc c (k (env c key)) st
  | NewObject k => let '(l, st') := alloc st in exec svc c (k l) st'
  | Pending => None
  end.

(** [this.initiator[name]] on the initiator map, a plain object: the own
    entry; else, for a name of [Object.prototype], that member, whose call
    [initiator(this)] does what [call_inherited] says; else [undefined]
    ([None]). *)
Definition read_initiator {rt : Runtime} (c : Container) (name : string)
    : option (action value) :=
  match initiator c !! name with
  | Some init => Some init
  | None =>
      if is_inherited name
      then Some match call_inherited name with
                | Ok v => Return v
                | Throw t => Raise t
                end
      else None
  end.

(** [Container.service].  [fuel] bounds the nesting of initiators that
    request services themselves; with no fuel left the promise stays
    pending. *)
Fixpoint service {rt : Runtime} (fuel : nat) (c : Container) (name : string)
    : M value := λ st,
  let cached := js_get (cache st) name in
  if defined cached then Some (Ok cached, st)
  else
    match read_initiator c name with
    | None => Some (Throw (ContainerMissingServiceError name), st)
    | Some init =>
        match fuel with
        | O => None
        | S fuel' =>
            match exec (service fuel' c) c init (log_invoked name st) with
            | Some (Ok constructed, st') =>
                Some (Ok constructed, set_cache name constructed st')
            | Some (Throw e, st') => Some (Throw e, st')
            | None => None
            end
        end
    end.

(** ** HTTP response types (src/http/response.ts) *)

(** A numeric [enum]: its members are numbers, and a value of the type is
    any number, which [createLambdaProxyResponse] passes on as it is. *)
Definition ResponseStatusCode : Type := Z.
Definition OK : ResponseStatusCode := 200%Z.
Definition Created : ResponseStatusCode := 201%Z.
Definition NoContent : ResponseStatusCode := 204%Z.
Definition NotFound : ResponseStatusCode := 404%Z.
Definition InternalServerError : ResponseStatusCode := 500%Z.

(** The numeric value of a status: the status itself. *)
Definition status_number (s : ResponseStatusCode) : Z := s.

Module ResponseHeader.
Definition CustomResponseType : string := "x-response-type".
Definition ContentType : string := "content-type".
Definition ContentLength : string := "content-length".
Definition AccessControlAllowOrigin : string := "access-control-allow-origin".
Definition AccessControlAllowHeaders : string := "access-control-allow-headers".
Definition AccessControlAllowMethods : string := "access-control-allow-methods".
Definition AccessControlAllowCredentials : string := "access-control-allow-credentials".
End ResponseHeader.

Record ResponseKind : Type := {
  status : ResponseStatusCode;
  data : jsval;
}.

(** ** The inbound event (aws-lambda's APIGatewayProxyEvent) *)

Module Event.
Record APIGatewayEventRequestContext : Type := {
  requestId : string;
  stage : string;
}.

Record APIGatewayProxyEvent : Type := {
  body : option string;
  headers : gmap string string;
  multiValueHeaders : gmap string (list string);
  httpMethod : string;
  isBase64Encoded : bool;
  path : string;
  pathParameters : option (gmap string string);
  queryStringParameters : option (gmap string string);
  multiValueQueryStringParameters : option (gmap string (list string));
  stageVariables : option (gmap string string);
  requestContext : APIGatewayEventRequestContext;
  resource : string;
}.
End Event.

(** aws-lambda's invocation [Context]; the wrapper only passes it on. *)
Record Context : Type := {
  functionName : string;
  awsRequestId : string;
}.

(** ** What both variants of Lambda.ts share *)

Record LambdaProxyResponse : Type := {
  statusCode : Z;
  headers : gmap string string;
  body : string;
}.

(** The headers object literal of [createLambdaProxyResponse], for the
    serialized body [json]. *)
Definition response_headers (json : string) : gmap string string :=
  <[ResponseHeader.ContentType := "application/json"]>
  (<[ResponseHeader.ContentLength := String_of_nat (String.length json)]>
  (<[ResponseHeader.AccessControlAllowOrigin := "*"]>
  (<[ResponseHeader.AccessControlAllowHeaders := "*"]>
  (<[ResponseHeader.AccessControlAllowMethods := "*"]>
  (<[ResponseHeader.AccessControlAllowCredentials := "*"]> ∅))))).

(** [createLambdaProxyResponse]; the text is the same in both variants.
    When [JSON.stringify] gives [undefined], [json.length] throws. *)
Definition createLambdaProxyResponse {rt : Runtime} (response : ResponseKind)
    : result LambdaProxyResponse :=
  match JSON_stringify (data response) with
  | None => Throw TypeError_length_of_undefined
  | Some json =>
      Ok {| statusCode := status_number (status response);
            headers := response_headers json;
            body := json |}
  end.

(** [error.stack?.split('\n') ?? []]. *)
Definition stack_lines (error : JsError) : list string :=
  match e_stack error with
  | Some stack => split_lines stack
  | None => []
  end.

(** The response built in the [catch] block of [restApiProxy]:
    [{ status: 500, type: 'internal.error', data: { name, message, stack } }].
    The [type] property is not read by [createLambdaProxyResponse]. *)
Definition internal_error_response (error : JsError) : ResponseKind :=
  {| status := InternalServerError;
     data := JObj [
       ("name", JStr (e_name error));
       ("message", JStr (e_message error));
       ("stack", JArr (map JStr (stack_lines error)))
     ] |}.

(** The first statements of the [catch] block, [const error: Error = caught]
    and the object literal that reads [error.name], [error.message] and
    [error.stack]: on [null] and [undefined] the read of [name] throws; a
    string has none of the three. *)
Definition caught_response {rt : Runtime} (caught : thrown) : result ResponseKind :=
  match caught with
  | ErrorObject error => Ok (internal_error_response error)
  | ThrownNull => Throw (TypeError_name_of_nullish true)
  | ThrownUndefined => Throw (TypeError_name_of_nullish false)
  | ThrownString _ =>
      Ok {| status := InternalServerError;
            data := JObj [
              ("name", JUndefined);
              ("message", JUndefined);
              ("stack", JArr [])
            ] |}
  end.

(** Calling a caller-supplied function that is typed to return a promise:
    it throws before returning, or it returns the promise of an [async]
    body.  An [async] function always does the latter. *)
Inductive call (R : Type) : Type :=
  | SyncThrow (t : thrown)
  | Promise (body : action R).
Arguments SyncThrow {R} t.
Arguments Promise {R} body.

(** Settling a promise returned by a handler. *)
Definition settle {rt : Runtime} {R} (fuel : nat) (c : Container)
    (p : action R) : M R :=
  exec (service fuel c) c p.

(** [await f(...)] inside a [try] block: a synchronous throw and a rejection
    both reach the [catch]. *)
Definition await_call {rt : Runtime} {R} (fuel : nat) (c : Container)
    (called : call R) : M R :=
  match called with
  | SyncThrow e => throw e
  | Promise p => settle fuel c p
  end.

(** ** src/Lambda.ts *)

Module Lambda.
Section WithRuntime.
Context {rt : Runtime}.

Record LambdaRequest : Type := {
  httpMethod : string;
  pathParameters : gmap string string;
  queryStringParameters : gmap string string;
  body : jsval;
  path : string;
  headers : gmap string string;
  isBase64Encoded : bool;
  multiValueHeaders : gmap string (list string);
  multiValueQueryStringParameters : option (gmap string (list string));
  stageVariables : option (gmap string string);
  requestContext : Event.APIGatewayEventRequestContext;
  resource : string;
}.

(** [(container, request, context) => Promise<ResponseKind>]; the container
    is reached through [AwaitService] and [CallEnv]. *)
Definition LambdaRequestHandlerFunction : Type :=
  LambdaRequest -> Context -> call ResponseKind.

Definition ContainerLambdaHandlerFunction (E O : Type) : Type :=
  E -> Context -> call O.

Definition createLambdaRequest (event : Event.APIGatewayProxyEvent)
    : result LambdaRequest :=
  bind
    (if bool_decide (Event.headers event !! "content-type" = Some "application/json")
     then
       try_catch
         (match Event.body event with
          | Some text =>
              if bool_decide (text ≠ EmptyString) then JSON_parse text
              else Ok JUndefined
          | None => Ok JUndefined
          end)
         (λ _, Ok JUndefined)
     else Ok JUndefined)
    (λ body,
       Ok {| httpMethod := Event.httpMethod event;
             pathParameters :=
               match Event.pathParameters event with
               | None => ∅
               | Some parameters => parameters
               end;
             queryStringParameters :=
               match Event.queryStringParameters event with
               | None => ∅
               | Some parameters => parameters
               end;
             body := body;
             path := Event.path event;
             headers := Event.headers event;
             multiValueHeaders := Event.multiValueHeaders event;
             isBase64Encoded := Event.isBase64Encoded event;
             requestContext := Event.requestContext event;
             resource := Event.resource event;
             stageVariables := Event.stageVariables event;
             multiValueQueryStringParameters :=
               Event.multiValueQueryStringParameters event |}).

Record LambdaWrapper : Type := { container : Container }.

(** The [try] block of [restApiProxy]. *)
Definition attempt (w : LambdaWrapper) (handler : LambdaRequestHandlerFunction)
    (fuel : nat) (event : Event.APIGatewayProxyEvent) (context : Context)
    : M LambdaProxyResponse :=
  request <- lift (createLambdaRequest event) ;;
  response <- await_call fuel (container w) (handler request context) ;;
  lift (createLambdaProxyResponse response).

Definition restApiProxy (w : LambdaWrapper) (handler : LambdaRequestHandlerFunction)
    (fuel : nat) (event : Event.APIGatewayProxyEvent) (context : Context)
    : M LambdaProxyResponse :=
  catchM (attempt w handler fuel event context)
    (λ caught,
       response <- lift (caught_response caught) ;;
       lift (createLambdaProxyResponse response)).

(** [handle]: [async (event, context) => handler(this.container, event,
    context)].  A synchronous throw of [handler] rejects the promise of the
    [async] wrapper; a returned promise is adopted. *)
Definition handle {E O} (w : LambdaWrapper)
    (handler : ContainerLambdaHandlerFunction E O)
    (fuel : nat) (event : E) (context : Context) : M O :=
  match handler event context with
  | SyncThrow e => throw e
  | Promise p => settle fuel (container w) p
  end.

End WithRuntime.
End Lambda.

(** ** The variant of Lambda.ts with [registerErrorHandler] *)

Module Lambda_part001.
Section WithRuntime.
Context {rt : Runtime}.

Record LambdaRequest : Type := {
  id : string;
  stage : string;
  method : string;
  path : string;
  headers : gmap string string;
  params : gmap string string;
  query : gmap string string;
  body : jsval;
}.

Definition LambdaRequestHandlerFunction : Type :=
  LambdaRequest -> Context -> call ResponseKind.

Definition ContainerLambdaHandlerFunction (E O : Type) : Type :=
  E -> Context -> call O.

(** [(error: Error) => Promise<void>]. *)
Definition ErrorHandlerFunction : Type := thrown -> action unit.

Definition createLambdaRequest (event : Event.APIGatewayProxyEvent)
    : result LambdaRequest :=
  bind
    (try_catch
       (match Event.body event with
        | Some text =>
            if bool_decide (text ≠ EmptyString) then JSON_parse text
            else Ok (JObj [])
        | None => Ok (JObj [])
        end)
       (λ _, Ok (JObj [])))
    (λ body,
       Ok {| id := Event.requestId (Event.requestContext event);
             stage := Event.stage (Event.requestContext event);
             method := Event.httpMethod event;
             path := Event.path event;
             headers := Event.headers event;
             params :=
               match Event.pathParameters event with
               | None => ∅
               | Some parameters => parameters
               end;
             query :=
               match Event.queryStringParameters event with
               | None => ∅
               | Some parameters => parameters
               end;
             body := body |}).

Record LambdaWrapper : Type := {
  container : Container;
  errorHandler : option ErrorHandlerFunction;
}.

(** [registerErrorHandler]: [this.errorHandler = handler]. *)
Definition registerErrorHandler (w : LambdaWrapper) (handler : ErrorHandlerFunction)
    : LambdaWrapper :=
  {| container := container w; errorHandler := Some handler |}.

(** [this.handleError(error)], called without [await]: when an error
    handler is registered it is invoked with [error], which the log
    [notified] records.  The promise it returns is dropped, and what the
    body of the handler does overlaps with the rest of the invocation: the
    body is not run here, so the store says nothing about its effects. *)
Definition handleError (w : LambdaWrapper) (error : thrown) : M unit :=
  match errorHandler w with
  | Some _ => λ st, Some (Ok tt, log_notified error st)
  | None => ret tt
  end.

Definition attempt (w : LambdaWrapper) (handler : LambdaRequestHandlerFunction)
    (fuel : nat) (event : Event.APIGatewayProxyEvent) (context : Context)
    : M LambdaProxyResponse :=
  request <- lift (createLambdaRequest event) ;;
  response <- await_call fuel (container w) (handler request context) ;;
  lift (createLambdaProxyResponse response).

Definition restApiProxy (w : LambdaWrapper) (handler : LambdaRequestHandlerFunction)
    (fuel : nat) (event : Event.APIGatewayProxyEvent) (context : Context)
    : M LambdaProxyResponse :=
  catchM (attempt w handler fuel event context)
    (λ caught,
       response <- lift (caught_response caught) ;;
       _ <- handleError w caught ;;
       lift (createLambdaProxyResponse response)).

(** [handle]: [try { return handler(...); } catch (caught) { ... }].  The
    promise is returned without [await], so the [catch] block only sees what
    the call itself throws; a returned promise is adopted as it is. *)
Definition handle {E O} (w : LambdaWrapper)
    (handler : ContainerLambdaHandlerFunction E O)
    (fuel : nat) (event : E) (context : Context) : M O :=
  match handler event context with
  | SyncThrow error =>
      _ <- handleError w error ;;
      throw error
  | Promise p => settle fuel (container w) p
  end.

End WithRuntime.
End Lambda_part001.

(** ** Environment constructors (src/Environment.ts) *)

(** [Environment.create(search)]: [new Environment(search)]. *)
Definition Environment_create (search : gmap string value) : Environment :=
  {| search := search |}.

(** [Environment.createFromNodeProcess()]: [Environment.create(process.env)];
    [process_env] is the process-level key/value store. *)
Definition Environment_createFromNodeProcess (process_env : gmap string value)
    : Environment :=
  Environment_create process_env.

(** ** The example handler set-up (example/handler.ts) *)

Module Example.
Section WithSdk.
Context {rt : Runtime}.

(** [s3.createPresignedPost({ Bucket })] of the AWS SDK, read at
    [result.url]: what it gives for a client and a bucket, or what it
    throws. *)
Variable createPresignedPost_url : value -> value -> result jsval.

(** [{ 'aws.s3': async () => { return new S3(); } }] *)
Definition containerInitiator : gmap string (action value) :=
  {[ "aws.s3" := NewObject (λ l, Return (VRef l)) ]}.

(** [new Container(environment, containerInitiator)] with
    [environment = Environment.createFromNodeProcess()]. *)
Definition container (process_env : gmap string value) : Container :=
  {| environment := Environment_createFromNodeProcess process_env;
     initiator := containerInitiator |}.

(** [new LambdaWrapper(container)]. *)
Definition handlerWrapper (process_env : gmap string value) : Lambda.LambdaWrapper :=
  {| Lambda.container := container process_env |}.

(** [myGetLambdaHandler]: await the S3 client, read the bucket name from
    the environment, presign, and answer 200 with [{ upload_url }]. *)
Definition myGetLambdaHandler : Lambda.LambdaRequestHandlerFunction :=
  λ request context,
    Promise (AwaitService "aws.s3" (λ awaited,
      match awaited with
      | Throw e => Raise e
      | Ok s3 =>
          CallEnv "MY_S3_BUCKET" (λ read,
            match read with
            | Throw e => Raise e
            | Ok bucket =>
                match createPresignedPost_url s3 bucket with
                | Throw e => Raise e
                | Ok url =>
                    Return {| status := OK;
                              data := JObj [("upload_url", url)] |}
                end
            end)
      end)).

(** [handlerWrapper.restApiProxy(myGetLambdaHandler)]. *)
Definition action (process_env : gmap string value) (fuel : nat)
    (event : Event.APIGatewayProxyEvent) (context : Context)
    : M LambdaProxyResponse :=
  Lambda.restApiProxy (handlerWrapper process_env) myGetLambdaHandler
    fuel event context.

End WithSdk.
End Example.

(** ** Vocabulary of the statements *)

Local Open Scope list_scope.

(** [adds ok st st']: the run from [st] to [st'] invoked initiators, and
    only ones whose name satisfies [ok]. *)
Definition adds (ok : string -> Prop) (st st' : store) : Prop :=
  ∃ added, invoked st' = added ++ invoked st ∧ Forall ok added.

(** The sentence of the specification as it is written: two calls in a row
    invoke the initiator of [name] at most once, and the second call gives
    what the first gave. *)
Definition memoized_twice {rt : Runtime} (c : Container) (name : string)
    (st : store) : Prop :=
  ∀ fuel1 fuel2 r1 st1 r2 st2,
    service fuel1 c name st = Some (r1, st1) ->
    service fuel2 c name st1 = Some (r2, st2) ->
    invocations name st2 <= invocations name st + 1 ∧ r2 = r1.

(** A sequence of [await container.service(name)] calls whose results are
    dropped, each with its own fuel; [None] when one of them does not
    settle. *)
Fixpoint service_calls {rt : Runtime} (c : Container)
    (calls : list (nat * string)) (st : store) : option store :=
  match calls with
  | [] => Some st
  | (fuel, name) :: rest =>
      match service fuel c name st with
      | Some (_, st') => service_calls c rest st'
      | None => None
      end
  end.

(** Every instance cached in [st] is still the cached instance in [st']. *)
Definition keeps_instances (st st' : store) : Prop :=
  ∀ k, defined (js_get (cache st) k) = true ->
       js_get (cache st') k = js_get (cache st) k.

(** From [st] to [st'] the cache changed only under names whose initiator
    was invoked in between. *)
Definition writes_invoked_only (st st' : store) : Prop :=
  ∃ added,
    invoked st' = added ++ invoked st
    ∧ ∀ k, k ∉ added -> cache st' !! k = cache st !! k.

(** The sentence of the specification on missing initiators as it is
    written: a name with no entry in the initiator map and nothing cached
    makes [service] fail with the missing-initiator error. *)
Definition fails_without_entry {rt : Runtime} (c : Container) (name : string)
    (st : store) : Prop :=
  initiator c !! name = None ->
  cache st !! name = None ->
  ∀ fuel, ∃ e : JsError,
    service fuel c name st = Some (Throw e, st)
    ∧ e_name e = ContainerMissingServiceErrorName.

(** The JSON text of an object with the properties [name], [message] and
    [stack], the last one an array of strings. *)
Definition error_text (name message : string) (lines : list string) : string :=
  ("{" ++ join "," [
     QuoteJSONString "name" ++ ":" ++ QuoteJSONString name;
     QuoteJSONString "message" ++ ":" ++ QuoteJSONString message;
     QuoteJSONString "stack" ++ ":" ++
       ("[" ++ join "," (map QuoteJSONString lines) ++ "]")
   ] ++ "}")%string.

(** [lines] are the lines of the stack trace [stack]: none when there is no
    stack; otherwise pieces without a line feed that, put together again
    with line feeds in between, are the stack. *)
Definition stack_split (stack : option string) (lines : list string) : Prop :=
  match stack with
  | None => lines = []
  | Some text =>
      lines ≠ []
      ∧ join newline lines = text
      ∧ Forall (λ line, Forall (λ ch, ch ≠ "010"%char) (list_ascii_of_string line))
          lines
  end.

(** A string that a JSON string literal holds as it is: no quote, no
    backslash, no control character. *)
Definition plain (s : string) : Prop :=
  Forall (λ ch, 32 <= nat_of_ascii ch ∧ nat_of_ascii ch ≠ 34 ∧ nat_of_ascii ch ≠ 92)
    (list_ascii_of_string s).

(** The sentence of the specification on errors in [restApiProxy] as it is
    written, for src/Lambda.ts: whatever the handler throws is answered with a
    500 response. *)
Definition every_throw_is_answered {rt : Runtime} (w : Lambda.LambdaWrapper)
    (handler : Lambda.LambdaRequestHandlerFunction) (fuel : nat)
    (event : Event.APIGatewayProxyEvent) (context : Context) (st : store) : Prop :=
  ∀ request t st',
    Lambda.createLambdaRequest event = Ok request ->
    await_call fuel (Lambda.container w) (handler request context) st
      = Some (Throw t, st') ->
    ∃ wire st'',
      Lambda.restApiProxy w handler fuel event context st = Some (Ok wire, st'')
      ∧ statusCode wire = 500%Z.

(** The text of [{ name, message, stack }] for a caught error. *)
Definition error_body (error : JsError) : string :=
  ("{" ++ join "," [
     QuoteJSONString "name" ++ ":" ++ QuoteJSONString (e_name error);
     QuoteJSONString "message" ++ ":" ++ QuoteJSONString (e_message error);
     QuoteJSONString "stack" ++ ":" ++
       ("[" ++ join "," (map QuoteJSONString (stack_lines error)) ++ "]")
   ] ++ "}")%string.

(** The wire response of the [catch] block. *)
Definition error_wire (error : JsError) : LambdaProxyResponse :=
  {| statusCode := 500;
     headers := response_headers (error_body error);
     body := error_body error |}.

Local Open Scope string_scope.

(** ** A concrete engine

    A [JSON.parse] for the texts of the runs below (integers, strings of
    code units below 256 with the escapes of JSON, arrays, objects with
    distinct keys; a number with a fraction or an exponent is outside of
    it), and the stack trace in V8's layout with a single frame.  The
    theorems hold for every [Runtime]; this one runs them. *)

Module Engine.

Definition is_whitespace (c : ascii) : bool :=
  let n := nat_of_ascii c in
  (n =? 32)%nat || (n =? 9)%nat || (n =? 10)%nat || (n =? 13)%nat.

Fixpoint skip_whitespace (s : string) : string :=
  match s with
  | String c rest => if is_whitespace c then skip_whitespace rest else s
  | EmptyString => s
  end.

Definition digit_value (c : ascii) : option nat :=
  let n := nat_of_ascii c in
  if (48 <=? n)%nat && (n <=? 57)%nat then Some (n - 48) else None.

Definition hex_value (c : ascii) : option nat :=
  let n := nat_of_ascii c in
  if (48 <=? n)%nat && (n <=? 57)%nat then Some (n - 48)
  else if (97 <=? n)%nat && (n <=? 102)%nat then Some (n - 87)
  else if (65 <=? n)%nat && (n <=? 70)%nat then Some (n - 55)
  else None.

(** The digits at the front of [s], read in base ten onto [acc]. *)
Fixpoint parse_digits (acc : nat) (s : string) : nat * string :=
  match s with
  | String c rest =>
      match digit_value c with
      | Some d => parse_digits (10 * acc + d) rest
      | None => (acc, s)
      end
  | EmptyString => (acc, s)
  end.

(** A fraction or an exponent follows: not an integer. *)
Definition starts_fraction (s : string) : bool :=
  match s with
  | String c _ =>
      let n := nat_of_ascii c in (n =? 46)%nat || (n =? 101)%nat || (n =? 69)%nat
  | EmptyString => false
  end.

Definition parse_number (s : string) : option (jsval * string) :=
  let '(negative, s1) :=
    match s with
    | String "-" rest => (true, rest)
    | _ => (false, s)
    end in
  match s1 with
  | String c rest =>
      match digit_value c with
      | Some d =>
          let '(n, s2) := if (d =? 0)%nat then (0, rest) else parse_digits d rest in
          if starts_fraction s2 then None
          else if match s2 with
                  | String c2 _ => bool_decide (is_Some (digit_value c2))
                  | EmptyString => false
                  end then None
          else Some (JNum (if negative then - Z.of_nat n else Z.of_nat n), s2)
      | None => None
      end
  | EmptyString => None
  end.

(** The rest of a string literal after its opening quote. *)
Fixpoint parse_string (s : string) : option (string * string) :=
  match s with
  | EmptyString => None
  | String c rest =>
      let n := nat_of_ascii c in
      if (n =? 34)%nat then Some (EmptyString, rest)
      else if (n <? 32)%nat then None
      else if (n =? 92)%nat then
        match rest with
        | String e rest1 =>
            let simple (u : ascii) :=
              match parse_string rest1 with
              | Some (text, rest2) => Some (String u text, rest2)
              | None => None
              end in
            match e with
            | "034"%char => simple "034"%char
            | "\"%char => simple "\"%char
            | "/"%char => simple "/"%char
            | "b"%char => simple "008"%char
            | "f"%char => simple "012"%char
            | "n"%char => simple "010"%char
            | "r"%char => simple "013"%char
            | "t"%char => simple "009"%char
            | "u"%char =>
                match rest1 with
                | String "0" (String "0" (String h (String l rest2))) =>
                    match hex_value h, hex_value l, parse_string rest2 with
                    | Some x, Some y, Some (text, rest3) =>
                        Some (String (ascii_of_nat (16 * x + y)) text, rest3)
                    | _, _, _ => None
                    end
                | _ => None
                end
            | _ => None
            end
        | EmptyString => None
        end
      else
        match parse_string rest with
        | Some (text, rest1) => Some (String c text, rest1)
        | None => None
        end
  end.

Definition expect (word : string) (v : jsval) (s : string) : option (jsval * string) :=
  if String.prefix word s
  then Some (v, String.substring (String.length word) (String.length s - String.length word) s)
  else None.

Fixpoint parse_value (fuel : nat) (s : string) : option (jsval * string) :=
  match fuel with
  | O => None
  | S fuel' =>
      match skip_whitespace s with
      | String "n" _ as s1 => expect "null" JNull s1
      | String "t" _ as s1 => expect "true" (JBool true) s1
      | String "f" _ as s1 => expect "false" (JBool false) s1
      | String "034" rest =>
          match parse_string rest with
          | Some (text, rest1) => Some (JStr text, rest1)
          | None => None
          end
      | String "[" rest =>
          match skip_whitespace rest with
          | String "]" rest1 => Some (JArr [], rest1)
          | s1 =>
              match parse_elements fuel' s1 with
              | Some (items, rest1) => Some (JArr items, rest1)
              | None => None
              end
          end
      | String "{" rest =>
          match skip_whitespace rest with
          | String "}" rest1 => Some (JObj [], rest1)
          | s1 =>
              match parse_members fuel' s1 with
              | Some (fields, rest1) => Some (JObj fields, rest1)
              | None => None
              end
          end
      | s1 => parse_number s1
      end
  end
with parse_elements (fuel : nat) (s : string) : option (list jsval * string) :=
  match fuel with
  | O => None
  | S fuel' =>
      match parse_value fuel' s with
      | Some (item, rest) =>
          match skip_whitespace rest with
          | String "," rest1 =>
              match parse_elements fuel' rest1 with
              | Some (items, rest2) => Some (item :: items, rest2)
              | None => None
              end
          | String "]" rest1 => Some ([item], rest1)
          | _ => None
          end
      | None => None
      end
  end
with parse_members (fuel : nat) (s : string)
    : option (list (string * jsval) * string) :=
  match fuel with
  | O => None
  | S fuel' =>
      match skip_whitespace s with
      | String "034" rest =>
          match parse_string rest with
          | Some (key, rest1) =>
              match skip_whitespace rest1 with
              | String ":" rest2 =>
                  match parse_value fuel' rest2 with
                  | Some (item, rest3) =>
                      match skip_whitespace rest3 with
                      | String "," rest4 =>
                          match parse_members fuel' rest4 with
                          | Some (fields, rest5) => Some ((key, item) :: fields, rest5)
                          | None => None
                          end
                      | String "}" rest4 => Some ([(key, item)], rest4)
                      | _ => None
                      end
                  | None => None
                  end
              | _ => None
              end
          | None => None
          end
      | _ => None
      end
  end.

Definition SyntaxError : JsError :=
  {| e_name := "SyntaxError"; e_message := "Unexpected token in JSON";
     e_stack := Some "SyntaxError: Unexpected token in JSON"; e_error := None |}.

Definition parse (text : string) : result jsval :=
  match parse_value (2 * String.length text + 2) text with
  | Some (v, rest) =>
      match skip_whitespace rest with
      | EmptyString => Ok v
      | _ => Throw SyntaxError
      end
  | None => Throw SyntaxError
  end.

Definition node : Runtime :=
  {| JSON_parse := parse;
     captureStackTrace := λ name message,
       Some (name ++ ": " ++ message ++
             String "010" "    at handler (/var/task/handler.js:1:1)");
     TypeError_length_of_undefined :=
       {| e_name := "TypeError";
          e_message := "Cannot read property 'length' of undefined";
          e_stack := Some "TypeError: Cannot read property 'length' of undefined";
          e_error := None |};
     TypeError_name_of_nullish := λ is_null,
       let message :=
         "Cannot read property 'name' of " ++ (if is_null then "null" else "undefined") in
       {| e_name := "TypeError"; e_message := message;
          e_stack := Some ("TypeError: " ++ message); e_error := None |};
     call_inherited := λ name,
       if String.eqb name "constructor" then Ok VContainer
       else if String.eqb name "toString" then Ok (VStr "[object Undefined]")
       else
         let message :=
           if String.eqb name "__proto__" then "initiator is not a function"
           else "Cannot convert undefined or null to object" in
         Throw {| e_name := "TypeError"; e_message := message;
                  e_stack := Some ("TypeError: " ++ message); e_error := None |} |}.

End Engine.

(** ** Test vectors *)

Module Examples.

(** [{ 'aws.s3': async () => new S3() }], as in example/handler.ts. *)
Definition s3_container : Container :=
  {| environment := {| search := {[ "MY_S3_BUCKET" := VStr "my-s3-bucket" ]} |};
     initiator := {[ "aws.s3" := NewObject (λ l, Return (VRef l)) ]} |}.

(** [{ 'noop': async () => undefined }]. *)
Definition undefined_container : Container :=
  {| environment := {| search := ∅ |};
     initiator := {[ "noop" := Return VUndefined ]} |}.

(** [a] asks for [b] and, while [b] is [undefined], for itself again; [b]
    is [undefined] the first time it is built and an object afterwards. *)
Definition reentrant_container : Container :=
  {| environment := {| search := ∅ |};
     initiator :=
       {[ "a" := AwaitService "b" (λ b,
                   match b with
                   | Ok VUndefined => AwaitService "a" (λ a,
                       match a with Ok v => Return v | Throw e => Raise e end)
                   | Ok v => Return v
                   | Throw e => Raise e
                   end);
          "b" := NewObject (λ l,
                   match l with
                   | O => Return VUndefined
                   | S _ => Return (VRef l)
                   end) ]} |}.

(** [a] builds its object and, the first time only, awaits [service('a')]
    before it returns the object. *)
Definition swap_container : Container :=
  {| environment := {| search := ∅ |};
     initiator :=
       {[ "a" := NewObject (λ l,
                   match l with
                   | O => AwaitService "a" (λ a,
                       match a with
                       | Ok _ => Return (VRef l)
                       | Throw e => Raise e
                       end)
                   | S _ => Return (VRef l)
                   end) ]} |}.

(** The store after the first [service('aws.s3')] on a new container. *)
Definition s3_store : store :=
  {| cache := {[ "aws.s3" := VRef 0 ]}; next_ref := 1;
     invoked := ["aws.s3"]; notified := [] |}.

(** The store after the first [service('noop')] on a new container. *)
Definition noop_store : store :=
  {| cache := {[ "noop" := VUndefined ]}; next_ref := 0;
     invoked := ["noop"]; notified := [] |}.

Definition context : Context :=
  {| functionName := "action"; awsRequestId := "c6af9ac6" |}.

(** The event of the end-to-end example, with the given headers and body. *)
Definition event (headers : gmap string string) (body : option string)
    : Event.APIGatewayProxyEvent :=
  {| Event.body := body;
     Event.headers := headers;
     Event.multiValueHeaders := ∅;
     Event.httpMethod := "GET";
     Event.isBase64Encoded := false;
     Event.path := "/x";
     Event.pathParameters := None;
     Event.queryStringParameters := None;
     Event.multiValueQueryStringParameters := None;
     Event.stageVariables := None;
     Event.requestContext := {| Event.requestId := "r-1"; Event.stage := "dev" |};
     Event.resource := "/x" |}.

Definition json_headers : gmap string string :=
  {[ "content-type" := "application/json" ]}.

Definition text_headers : gmap string string :=
  {[ "content-type" := "text/plain" ]}.

(** [{"a":1}] *)
Definition valid_json : string :=
  "{" ++ dquote ++ "a" ++ dquote ++ ":1}".

Definition boom : JsError := Error (rt := Engine.node) "boom".

(** [async () => { throw new Error('boom'); }] *)
Definition failing_handler {E O : Type} : E -> Context -> call O :=
  λ _ _, Promise (Raise boom).

(** [async () => { throw null; }] *)
Definition null_handler {E O : Type} : E -> Context -> call O :=
  λ _ _, Promise (Raise ThrownNull).

(** [async () => { throw 'boom'; }] *)
Definition string_handler {E O : Type} : E -> Context -> call O :=
  λ _ _, Promise (Raise (ThrownString "boom")).

(** [() => { throw new Error('boom'); }], not [async]. *)
Definition throwing_handler {E O : Type} : E -> Context -> call O :=
  λ _ _, SyncThrow boom.

(** [async (container) => { await container.service('aws.s3');
    return { status: 200, data: { ok: true } }; }] *)
Definition ok_handler {E : Type} : E -> Context -> call ResponseKind :=
  λ _ _, Promise (AwaitService "aws.s3" (λ s3,
    match s3 with
    | Ok _ => Return {| status := OK; data := JObj [("ok", JBool true)] |}
    | Throw e => Raise e
    end)).

Definition wrapper : Lambda.LambdaWrapper :=
  {| Lambda.container := s3_container |}.

(** A wrapper after [registerErrorHandler(async () => {})]. *)
Definition wrapper_with_error_handler : Lambda_part001.LambdaWrapper :=
  Lambda_part001.registerErrorHandler
    {| Lambda_part001.container := s3_container;
       Lambda_part001.errorHandler := None |}
    (λ _, Return tt).

(** The one-letter string of U+00E9. *)
Definition e_acute : string := String "233" EmptyString.

(** [{ a: async () => new A(), b: async () => new B() }] *)
Definition two_container : Container :=
  {| environment := {| search := ∅ |};
     initiator := {[ "a" := NewObject (λ l, Return (VRef l));
                     "b" := NewObject (λ l, Return (VRef l)) ]} |}.

(** The store after [service('a')] on a new [two_container] ... *)
Definition store_a : store :=
  {| cache := {[ "a" := VRef 0 ]}; next_ref := 1;
     invoked := ["a"]; notified := [] |}.

(** ... and after [service('b')] next. *)
Definition store_ab : store :=
  {| cache := <["b" := VRef 1]> {[ "a" := VRef 0 ]}; next_ref := 2;
     invoked := ["b"; "a"]; notified := [] |}.

(** [{ db: async () => { throw new Error('boom'); } }] *)
Definition failing_container : Container :=
  {| environment := {| search := ∅ |};
     initiator := {[ "db" := Raise boom ]} |}.

(** [async () => ({ status: 204, data: undefined })] *)
Definition no_content_handler {E : Type} : E -> Context -> call ResponseKind :=
  λ _ _, Promise (Return {| status := NoContent; data := JUndefined |}).

(** A process environment with the bucket of the example. *)
Definition process_env : gmap string value :=
  {[ "MY_S3_BUCKET" := VStr "my-s3-bucket" ]}.

(** An SDK that presigns every request with one URL. *)
Definition sdk : value -> value -> result jsval :=
  λ _ _, Ok (JStr "https://my-s3-bucket.s3.amazonaws.com/").

End Examples.

(** * Properties *)

Local Open Scope list_scope.

(** ** Strings *)

Lemma string_append_cons (ch : ascii) (a b : string) :
  (String ch a ++ b)%string = String ch (a ++ b)%string.
Proof. reflexivity. Qed.

Lemma string_append_assoc (a b c : string) :
  ((a ++ b) ++ c)%string = (a ++ b ++ c)%string.
Proof.
  induction a as [|ch a IH]; [reflexivity|].
  rewrite !string_append_cons. f_equal. exact IH.
Qed.

Lemma prefix_append (needle rest : string) :
  String.prefix needle (needle ++ rest)%string = true.
Proof.
  induction needle as [|ch needle IH].
  - destruct rest; reflexivity.
  - rewrite string_append_cons. simpl.
    destruct (ascii_dec ch ch) as [_|Hne]; [exact IH | contradiction].
Qed.

Lemma includes_prefix (needle haystack : string) :
  String.prefix needle haystack = true -> includes needle haystack = true.
Proof. destruct haystack; simpl; intros ->; reflexivity. Qed.

Lemma includes_append (needle before after : string) :
  includes needle (before ++ needle ++ after)%string = true.
Proof.
  induction before as [|ch before IH].
  - apply includes_prefix. exact (prefix_append needle after).
  - rewrite string_append_cons. simpl. rewrite IH. apply orb_true_r.
Qed.

Lemma split_lines_nonempty (s : string) : split_lines s ≠ [].
Proof.
  destruct s as [|c rest]; simpl; [discriminate|].
  destruct (Ascii.eqb c "010"); [discriminate|].
  destruct (split_lines rest); discriminate.
Qed.

Lemma join_extend_first (c : ascii) (pieces : list string) :
  pieces ≠ [] ->
  join newline (extend_first c pieces) = String c (join newline pieces).
Proof.
  destruct pieces as [|a [|b rest]]; [contradiction| |]; intros _; reflexivity.
Qed.

(** The pieces of [split_lines], put together with line feeds, are the
    string; no piece holds a line feed. *)
Lemma join_split_lines (s : string) : join newline (split_lines s) = s.
Proof.
  induction s as [|c rest IH]; [reflexivity|]. simpl.
  destruct (Ascii.eqb_spec c "010") as [->|Hne].
  - pose proof (split_lines_nonempty rest) as Hrest.
    destruct (split_lines rest) as [|a pieces] eqn:E; [contradiction|].
    change (join newline (EmptyString :: a :: pieces))
      with (newline ++ join newline (a :: pieces))%string.
    rewrite IH. reflexivity.
  - rewrite join_extend_first by apply split_lines_nonempty.
    rewrite IH. reflexivity.
Qed.

Lemma split_lines_no_newline (s : string) :
  Forall (λ line, Forall (λ ch, ch ≠ "010"%char) (list_ascii_of_string line))
    (split_lines s).
Proof.
  induction s as [|c rest IH]; simpl.
  - repeat constructor.
  - destruct (Ascii.eqb_spec c "010") as [->|Hne].
    + constructor; [constructor | exact IH].
    + destruct (split_lines rest) as [|a pieces]; simpl.
      * repeat constructor. exact Hne.
      * inversion IH as [|? ? Ha Hpieces]; subst.
        constructor; [|exact Hpieces]. simpl. constructor; assumption.
Qed.

Lemma quote_code_units_plain (s : string) : plain s -> quote_code_units s = s.
Proof.
  unfold plain. induction s as [|c rest IH]; simpl; [reflexivity|].
  intros H. inversion H as [|? ? (Hlow & Hquote & Hslash) Hrest]; subst.
  rewrite IH by assumption. unfold quote_code_unit. cbv zeta.
  destruct (Nat.eqb_spec (nat_of_ascii c) 34); [lia|].
  destruct (Nat.eqb_spec (nat_of_ascii c) 92); [lia|].
  destruct (Nat.eqb_spec (nat_of_ascii c) 8); [lia|].
  destruct (Nat.eqb_spec (nat_of_ascii c) 9); [lia|].
  destruct (Nat.eqb_spec (nat_of_ascii c) 10); [lia|].
  destruct (Nat.eqb_spec (nat_of_ascii c) 12); [lia|].
  destruct (Nat.eqb_spec (nat_of_ascii c) 13); [lia|].
  destruct (Nat.ltb_spec (nat_of_ascii c) 32); [lia|]. reflexivity.
Qed.

(** ** Container.service *)

Section ContainerTheory.
Context {rt : Runtime}.
Implicit Types (c : Container) (st : store) (name : string) (v : value).

Lemma adds_refl ok st : adds ok st st.
Proof. exists []. split; [reflexivity | constructor]. Qed.

Lemma adds_trans ok st1 st2 st3 :
  adds ok st1 st2 -> adds ok st2 st3 -> adds ok st1 st3.
Proof.
  intros (l1 & E1 & F1) (l2 & E2 & F2). exists (l2 ++ l1). split.
  - rewrite E2, E1. apply app_assoc.
  - apply Forall_app; split; assumption.
Qed.

Lemma adds_weaken (ok ok' : string -> Prop) st st' :
  (∀ n, ok n -> ok' n) -> adds ok st st' -> adds ok' st st'.
Proof.
  intros Himp (l & E & F). exists l. split; [assumption |].
  eapply Forall_impl; eauto.
Qed.

Lemma service_cached fuel c name st :
  defined (js_get (cache st) name) = true ->
  service fuel c name st = Some (Ok (js_get (cache st) name), st).
Proof. intros Hd. destruct fuel; simpl; rewrite Hd; reflexivity. Qed.

(** One unfolding of [service] on a name that is not cached and has an
    initiator: the initiator runs. *)
Lemma service_construct fuel c name init st :
  js_get (cache st) name = VUndefined ->
  initiator c !! name = Some init ->
  service (S fuel) c name st =
    match exec (service fuel c) c init (log_invoked name st) with
    | Some (Ok constructed, st') =>
        Some (Ok constructed, set_cache name constructed st')
    | Some (Throw e, st') => Some (Throw e, st')
    | None => None
    end.
Proof.
  intros Hc Hi. simpl. unfold read_initiator. rewrite Hc, Hi. reflexivity.
Qed.

Lemma service_missing fuel c name st :
  js_get (cache st) name = VUndefined ->
  read_initiator c name = None ->
  service fuel c name st = Some (Throw (ContainerMissingServiceError name), st).
Proof. intros Hc Hi. destruct fuel; simpl; rewrite Hc, Hi; reflexivity. Qed.

(** An own entry of the initiator map is what [this.initiator[name]]
    reads; the member of [Object.prototype] that is read otherwise requests
    no service and settles. *)
Lemma read_initiator_own c name init :
  initiator c !! name = Some init -> read_initiator c name = Some init.
Proof. intros Hi. unfold read_initiator. rewrite Hi. reflexivity. Qed.

Lemma read_initiator_requests c name init m :
  read_initiator c name = Some init -> requests init m ->
  initiator c !! name = Some init.
Proof.
  unfold read_initiator. destruct (initiator c !! name) as [own|]; [congruence|].
  destruct (is_inherited name); [|discriminate].
  intros [= <-] Hreq. destruct (call_inherited name); inversion Hreq.
Qed.

(** What a call resolves to is what the cache then holds. *)
Lemma service_resolved_cached fuel c name st v st1 :
  service fuel c name st = Some (Ok v, st1) ->
  js_get (cache st1) name = v.
Proof.
  destruct fuel as [|fuel]; simpl;
    destruct (defined (js_get (cache st) name)) eqn:Hd;
    try (intros [= <- <-]; reflexivity);
    destruct (read_initiator c name) as [init|]; try discriminate.
  destruct (exec _ c init _) as [[[constructed|e] st']|]; try discriminate.
  intros [= <- <-]. unfold js_get, set_cache. simpl.
  rewrite lookup_insert_eq. reflexivity.
Qed.

(** A run of an [async] body adds to the log what the services it awaits
    add. *)
Lemma exec_adds (ok : string -> Prop) (admitted : string -> Prop)
    (svc : string -> M value) c :
  (∀ m st r st', admitted m -> svc m st = Some (r, st') -> adds ok st st') ->
  ∀ {R} (a : action R) st r st',
    (∀ m, requests a m -> admitted m) ->
    exec svc c a st = Some (r, st') -> adds ok st st'.
Proof.
  intros Hsvc R a.
  induction a as [r0|e|m k IH|key k IH|k IH|]; intros st r st' Hreq; simpl;
    [| | | | |discriminate].
  - intros [= <- <-]. apply adds_refl.
  - intros [= <- <-]. apply adds_refl.
  - destruct (svc m st) as [[r0 st0]|] eqn:Hm; [|discriminate].
    intros Hk. apply adds_trans with st0.
    + eapply Hsvc; [|exact Hm]. apply Hreq. constructor.
    + eapply IH; [|exact Hk]. intros m' Hm'. apply Hreq.
      eapply requests_after_service; exact Hm'.
  - intros Hk. eapply IH; [|exact Hk]. intros m' Hm'. apply Hreq.
    eapply requests_after_env; exact Hm'.
  - intros Hk. eapply IH in Hk.
    + destruct Hk as (l & E & F). exists l. split; assumption.
    + intros m' Hm'. apply Hreq. eapply requests_after_new; exact Hm'.
Qed.

(** A call that settles either leaves the store alone (cached, or no
    initiator), or has run the initiator of [name]; writing the cache does
    not touch the logs. *)
Lemma service_inv fuel c name st r st' :
  service fuel c name st = Some (r, st') ->
  st' = st
  ∨ ∃ fuel' init r0 st0,
      fuel = S fuel'
      ∧ read_initiator c name = Some init
      ∧ exec (service fuel' c) c init (log_invoked name st) = Some (r0, st0)
      ∧ invoked st' = invoked st0
      ∧ notified st' = notified st0.
Proof.
  destruct fuel as [|fuel]; simpl;
    destruct (defined (js_get (cache st) name));
    try (intros [= <- <-]; left; reflexivity);
    destruct (read_initiator c name) as [init|] eqn:Hinit;
    try (intros [= <- <-]; left; reflexivity); try discriminate.
  destruct (exec _ c init _) as [[r0 st0]|] eqn:He; [|discriminate].
  intros Hr. right. exists fuel, init, r0, st0.
  destruct r0; injection Hr as <- <-; auto.
Qed.

(** The initiator of [name] was logged before it ran. *)
Lemma adds_after_invocation (ok : string -> Prop) name st st0 :
  ok name -> adds ok (log_invoked name st) st0 -> adds ok st st0.
Proof.
  intros Hname (l & E & F). exists (l ++ [name]). split.
  - rewrite E. simpl. rewrite <- app_assoc. reflexivity.
  - apply Forall_app. split; [exact F | repeat constructor; exact Hname].
Qed.

Lemma adds_same_log (ok : string -> Prop) st st0 st' :
  invoked st' = invoked st0 -> adds ok st st0 -> adds ok st st'.
Proof. intros Hlog (l & E & F). exists l. rewrite Hlog. auto. Qed.

(** The log of invoked initiators only grows. *)
Lemma service_log_grows fuel c name st r st' :
  service fuel c name st = Some (r, st') -> adds (λ _, True) st st'.
Proof.
  revert name st r st'.
  induction fuel as [|fuel IH]; intros name st r st' Hcall;
    apply service_inv in Hcall
      as [->|(fuel' & init & r0 & st0 & Hfuel & _ & He & Hlog & _)];
    try apply adds_refl; [discriminate|].
  injection Hfuel as <-.
  apply adds_same_log with st0; [exact Hlog|].
  apply (adds_after_invocation _ name); [exact I|].
  eapply (exec_adds (λ _, True) (λ _, True)); [| |exact He]; [|done].
  intros m s1 r1 s2 _ Hm. eapply IH; exact Hm.
Qed.

(** On an acyclic container the initiator of [name] only awaits services
    that invoke initiators of lower rank. *)
Lemma initiator_adds_lower_rank fuel c rank name init st r0 st0 :
  acyclic c rank ->
  (∀ m s1 r1 s2,
     service fuel c m s1 = Some (r1, s2) -> adds (λ n, rank n <= rank m) s1 s2) ->
  read_initiator c name = Some init ->
  exec (service fuel c) c init st = Some (r0, st0) ->
  adds (λ n, rank n < rank name) st st0.
Proof.
  intros Hacyclic Hsvc Hinit He.
  eapply (exec_adds _ (λ m, rank m < rank name)); [| |exact He].
  - intros m s1 r1 s2 Hlt Hm. eapply adds_weaken; [|eapply Hsvc; exact Hm].
    simpl. intros n Hn. lia.
  - intros m Hm. eapply Hacyclic; [|exact Hm].
    eapply read_initiator_requests; eassumption.
Qed.

(** On an acyclic container a call for [name] invokes initiators of rank at
    most the rank of [name]. *)
Lemma service_adds_rank fuel c rank :
  acyclic c rank ->
  ∀ name st r st',
    service fuel c name st = Some (r, st') ->
    adds (λ n, rank n <= rank name) st st'.
Proof.
  intros Hacyclic.
  induction fuel as [|fuel IH]; intros name st r st' Hcall;
    apply service_inv in Hcall
      as [->|(fuel' & init & r0 & st0 & Hfuel & Hinit & He & Hlog & _)];
    try apply adds_refl; [discriminate|].
  injection Hfuel as <-.
  apply adds_same_log with st0; [exact Hlog|].
  apply (adds_after_invocation _ name); [simpl; lia|].
  eapply adds_weaken;
    [|eapply initiator_adds_lower_rank; [exact Hacyclic|exact IH|exact Hinit|exact He]].
  simpl. intros n Hn. lia.
Qed.

Lemma occurrences_app name (l1 l2 : list string) :
  occurrences name (l1 ++ l2) = occurrences name l1 + occurrences name l2.
Proof. unfold occurrences. rewrite filter_app, length_app. reflexivity. Qed.

Lemma occurrences_absent name (l : list string) :
  Forall (λ n, n ≠ name) l -> occurrences name l = 0.
Proof.
  unfold occurrences. induction 1 as [|n l Hn _ IH]; [reflexivity|].
  rewrite filter_cons_False by assumption. exact IH.
Qed.

Lemma occurrences_here name (l : list string) :
  occurrences name (name :: l) = S (occurrences name l).
Proof. unfold occurrences. rewrite filter_cons_True by reflexivity. reflexivity. Qed.

(** On an acyclic container one call invokes the initiator of the requested
    name at most once. *)
Lemma service_invokes_once fuel c rank name st r st' :
  acyclic c rank ->
  service fuel c name st = Some (r, st') ->
  invocations name st' <= invocations name st + 1.
Proof.
  intros Hacyclic Hcall. unfold invocations.
  apply service_inv in Hcall
    as [->|(fuel' & init & r0 & st0 & _ & Hinit & He & -> & _)]; [lia|].
  assert (adds (λ n, rank n < rank name) (log_invoked name st) st0)
    as (l & -> & F).
  { eapply initiator_adds_lower_rank; [exact Hacyclic| |exact Hinit|exact He].
    intros m s1 r1 s2. apply service_adds_rank. exact Hacyclic. }
  simpl. rewrite occurrences_app, occurrences_here.
  rewrite occurrences_absent; [lia|].
  eapply Forall_impl; [exact F|]. simpl. intros n Hn ->. lia.
Qed.

End ContainerTheory.

Section ContainerClaims.
Context {rt : Runtime}.
Implicit Types (c : Container) (st : store) (name : string) (v : value).

(** C1, as amended.  When the first [service(name)] resolves to a value other
    than [undefined], a second call on the same container resolves to the
    identical value and leaves the store as it is: it invokes no initiator.
    When in addition the initiators of the container request each other
    without a cycle, the first call invoked the initiator of [name] at most
    once, so the two calls together did. *)
Theorem service_twice_same_instance c name fuel1 fuel2 st v st1 :
  service fuel1 c name st = Some (Ok v, st1) ->
  defined v = true ->
  service fuel2 c name st1 = Some (Ok v, st1)
  ∧ (∀ rank, acyclic c rank -> invocations name st1 <= invocations name st + 1).
Proof.
  intros Hfirst Hdefined. split.
  - pose proof (service_resolved_cached _ _ _ _ _ _ Hfirst) as Hcached.
    rewrite <- Hcached. apply service_cached.
    rewrite Hcached. exact Hdefined.
  - intros rank Hacyclic. eapply service_invokes_once; eassumption.
Qed.

(** C2, as amended.  When [this.cache[name]] and [this.initiator[name]] both
    read [undefined] (the name has no own entry in the initiator map, is not
    a name that objects inherit from [Object.prototype], and nothing is
    cached under it), [service] fails with the error whose [name] is the
    constant [ContainerMissingServiceInitiatorError], a field apart from the
    message that quotes the service; the store (cache and log of invoked
    initiators) is left as it was, whatever the fuel. *)
Theorem service_without_initiator c name fuel st :
  initiator c !! name = None ->
  is_inherited name = false ->
  js_get (cache st) name = VUndefined ->
  ∃ e : JsError,
    service fuel c name st = Some (Throw e, st)
    ∧ e_name e = "ContainerMissingServiceInitiatorError"%string
    ∧ e_message e =
        ("The service " ++ dquote ++ name ++ dquote ++
         " has no initiator provided. Please provide an initiator for this service before calling it.")%string
    ∧ e_name e ≠ e_message e.
Proof.
  intros Hinit Hinherited Hcache. exists (ContainerMissingServiceError name).
  split.
  { apply service_missing; [assumption|].
    unfold read_initiator. rewrite Hinit, Hinherited. reflexivity. }
  split; [reflexivity|].
  assert (e_message (ContainerMissingServiceError name) =
    ("The service " ++ dquote ++ name ++ dquote ++
     " has no initiator provided. Please provide an initiator for this service before calling it.")%string) as Hmsg.
  { unfold ContainerMissingServiceError, NameAwareError, join. simpl e_message.
    rewrite !string_append_assoc. reflexivity. }
  split; [exact Hmsg|].
  rewrite Hmsg. cbn. discriminate.
Qed.

(** C10.  When the initiator of [name] resolved to [undefined], the cache
    reads [undefined] for [name], so the test [cached !== undefined] fails on
    the next call: that call is the run of the initiator once more, and
    whenever it settles the initiator of [name] has been invoked again. *)
Theorem undefined_result_is_rebuilt c name init fuel st st1 :
  initiator c !! name = Some init ->
  service fuel c name st = Some (Ok VUndefined, st1) ->
  js_get (cache st1) name = VUndefined
  ∧ (∀ fuel2,
     service (S fuel2) c name st1 =
       match exec (service fuel2 c) c init (log_invoked name st1) with
       | Some (Ok constructed, st') =>
           Some (Ok constructed, set_cache name constructed st')
       | Some (Throw e, st') => Some (Throw e, st')
       | None => None
       end)
  ∧ (∀ fuel2 r st2,
       service fuel2 c name st1 = Some (r, st2) ->
       invocations name st1 < invocations name st2).
Proof.
  intros Hinit Hfirst.
  pose proof (service_resolved_cached _ _ _ _ _ _ Hfirst) as Hcached.
  split; [exact Hcached|]. split.
  - intros fuel2. apply service_construct; assumption.
  - intros [|fuel2] r st2.
    + simpl. rewrite Hcached, (read_initiator_own _ _ _ Hinit). discriminate.
    + rewrite (service_construct _ _ _ init) by assumption.
      destruct (exec _ c init _) as [[r0 st0]|] eqn:He; [|discriminate].
      assert (adds (λ _, True) (log_invoked name st1) st0) as (l & E & _).
      { eapply (exec_adds (λ _, True) (λ _, True)); [| |exact He]; [|done].
        intros m s1 r1 s2 _ Hm. eapply service_log_grows; exact Hm. }
      assert (invocations name st1 < invocations name st0) as Hlt.
      { unfold invocations. rewrite E. simpl.
        rewrite occurrences_app, occurrences_here. lia. }
      destruct r0; intros [= <- <-]; exact Hlt.
Qed.

End ContainerClaims.

(** ** The response encoder *)

Section EncoderTheory.
Context {rt : Runtime}.

Lemma JSON_stringify_internal_error error :
  JSON_stringify (data (internal_error_response error)) = Some (error_body error).
Proof.
  unfold internal_error_response, error_body. simpl.
  rewrite map_map. reflexivity.
Qed.

Lemma createLambdaProxyResponse_internal_error error :
  createLambdaProxyResponse (internal_error_response error) = Ok (error_wire error).
Proof.
  unfold createLambdaProxyResponse.
  rewrite JSON_stringify_internal_error. reflexivity.
Qed.

Lemma error_body_includes_message error :
  includes (QuoteJSONString "message" ++ ":" ++ QuoteJSONString (e_message error))%string
    (error_body error) = true.
Proof.
  unfold error_body, join.
  set (needle := (QuoteJSONString "message" ++ ":" ++ QuoteJSONString (e_message error))%string).
  set (first := (QuoteJSONString "name" ++ ":" ++ QuoteJSONString (e_name error))%string).
  set (last := (QuoteJSONString "stack" ++ ":" ++ _)%string).
  replace ("{" ++ (first ++ "," ++ needle ++ "," ++ last) ++ "}")%string
    with (("{" ++ first ++ ",") ++ needle ++ ("," ++ last ++ "}"))%string.
  - apply includes_append.
  - rewrite !string_append_assoc. reflexivity.
Qed.


(** [JSON.stringify(undefined)] is [undefined], and reading its [length]
    throws. *)
Lemma createLambdaProxyResponse_undefined response :
  data response = JUndefined ->
  createLambdaProxyResponse response = Throw TypeError_length_of_undefined.
Proof. intros H. unfold createLambdaProxyResponse. rewrite H. reflexivity. Qed.

(** The header object has the six fixed names and nothing else. *)
Lemma response_headers_dom json :
  dom (response_headers json) =
    ({[ "content-type"; "content-length"; "access-control-allow-origin";
        "access-control-allow-headers"; "access-control-allow-methods";
        "access-control-allow-credentials" ]} : gset string).
Proof. unfold response_headers. rewrite !dom_insert_L, dom_empty_L. set_solver. Qed.

Lemma response_headers_lookup json :
  response_headers json !! "content-type" = Some "application/json"
  ∧ response_headers json !! "content-length" = Some (String_of_nat (String.length json))
  ∧ response_headers json !! "access-control-allow-origin" = Some "*"
  ∧ response_headers json !! "access-control-allow-headers" = Some "*"
  ∧ response_headers json !! "access-control-allow-methods" = Some "*"
  ∧ response_headers json !! "access-control-allow-credentials" = Some "*".
Proof. unfold response_headers. repeat split; by simplify_map_eq. Qed.


End EncoderTheory.

(** ** The request decoder *)

Section DecoderTheory.
Context {rt : Runtime}.
Implicit Types (event : Event.APIGatewayProxyEvent).

(** [createLambdaRequest] never throws. *)
Lemma createLambdaRequest_returns event :
  ∃ request, Lambda.createLambdaRequest event = Ok request.
Proof.
  unfold Lambda.createLambdaRequest.
  destruct (bool_decide _); [|eexists; reflexivity].
  destruct (Event.body event) as [text|]; [|eexists; reflexivity].
  destruct (bool_decide _); [|eexists; reflexivity].
  destruct (JSON_parse text); eexists; reflexivity.
Qed.

Lemma createLambdaRequest_part001_returns event :
  ∃ request, Lambda_part001.createLambdaRequest event = Ok request.
Proof.
  unfold Lambda_part001.createLambdaRequest.
  destruct (Event.body event) as [text|]; [|eexists; reflexivity].
  destruct (bool_decide _); [|eexists; reflexivity].
  destruct (JSON_parse text); eexists; reflexivity.
Qed.

(** Under the JSON content-type, src/Lambda.ts hands the handler the parse
    of a non-empty raw body. *)
Lemma createLambdaRequest_parses_json event text parsed :
  Event.headers event !! "content-type" = Some "application/json"%string ->
  Event.body event = Some text -> text ≠ EmptyString ->
  JSON_parse text = Ok parsed ->
  ∃ request,
    Lambda.createLambdaRequest event = Ok request
    ∧ Lambda.body request = parsed.
Proof.
  intros Hct Hbody Hne Hparse. unfold Lambda.createLambdaRequest.
  rewrite bool_decide_eq_true_2 by exact Hct.
  rewrite Hbody, bool_decide_eq_true_2 by exact Hne.
  rewrite Hparse. eexists. split; reflexivity.
Qed.

(** C5, as amended.  In src/Lambda.ts the raw body is parsed only under
    [headers['content-type'] === 'application/json']: with any other
    content-type the body of the request is [undefined], whatever the raw
    body, and a body that is not [undefined] is the parse of a non-empty raw
    body under that header.  The variant with [registerErrorHandler] has no
    such test: a non-empty raw body that parses is the body of the request
    whatever the headers. *)
Theorem body_parsed_under_json_content_type :
  (∀ event,
     Event.headers event !! "content-type" ≠ Some "application/json"%string ->
     ∃ request,
       Lambda.createLambdaRequest event = Ok request
       ∧ Lambda.body request = JUndefined)
  ∧ (∀ event request,
       Lambda.createLambdaRequest event = Ok request ->
       Lambda.body request ≠ JUndefined ->
       Event.headers event !! "content-type" = Some "application/json"%string
       ∧ ∃ text, Event.body event = Some text ∧ text ≠ EmptyString
                 ∧ JSON_parse text = Ok (Lambda.body request))
  ∧ (∀ event text parsed,
       Event.body event = Some text -> text ≠ EmptyString ->
       JSON_parse text = Ok parsed ->
       ∃ request,
         Lambda_part001.createLambdaRequest event = Ok request
         ∧ Lambda_part001.body request = parsed).
Proof.
  split; [|split].
  - intros event Hct. unfold Lambda.createLambdaRequest.
    rewrite bool_decide_eq_false_2 by exact Hct.
    eexists. split; reflexivity.
  - intros event request. unfold Lambda.createLambdaRequest.
    destruct (bool_decide_reflect
                (Event.headers event !! "content-type" = Some "application/json"%string))
      as [Hct|Hct]; [|intros [= <-] Hb; simpl in Hb; congruence].
    destruct (Event.body event) as [text|]; [|intros [= <-] Hb; simpl in Hb; congruence].
    destruct (bool_decide_reflect (text ≠ EmptyString)) as [Hne|Hne];
      [|intros [= <-] Hb; simpl in Hb; congruence].
    destruct (JSON_parse text) as [parsed|err] eqn:Hparse;
      intros [= <-] Hb; simpl in Hb; [|congruence].
    split; [exact Hct|]. exists text. simpl. auto.
  - intros event text parsed Hbody Hne Hparse.
    unfold Lambda_part001.createLambdaRequest.
    rewrite Hbody, bool_decide_eq_true_2 by exact Hne.
    rewrite Hparse. eexists. split; reflexivity.
Qed.

(** C7.  With [content-type: application/json] and a non-empty raw body that
    [JSON.parse] rejects, [createLambdaRequest] returns a request, and its
    body is the default: [undefined] in src/Lambda.ts, [{}] in the variant
    with [registerErrorHandler]. *)
Theorem malformed_body_is_swallowed event text error :
  Event.headers event !! "content-type" = Some "application/json"%string ->
  Event.body event = Some text ->
  text ≠ EmptyString ->
  JSON_parse text = Throw error ->
  (∃ request,
     Lambda.createLambdaRequest event = Ok request
     ∧ Lambda.body request = JUndefined)
  ∧ (∃ request,
       Lambda_part001.createLambdaRequest event = Ok request
       ∧ Lambda_part001.body request = JObj []).
Proof.
  intros Hct Hbody Hne Hparse. split.
  - unfold Lambda.createLambdaRequest.
    rewrite bool_decide_eq_true_2 by exact Hct.
    rewrite Hbody, bool_decide_eq_true_2 by exact Hne.
    rewrite Hparse. eexists. split; reflexivity.
  - unfold Lambda_part001.createLambdaRequest.
    rewrite Hbody, bool_decide_eq_true_2 by exact Hne.
    rewrite Hparse. eexists. split; reflexivity.
Qed.

(** C8.  [createLambdaRequest] returns a request for every event; a [null]
    [pathParameters] is decoded to the empty mapping and so is a [null]
    [queryStringParameters] (the fields of the request are mappings, [null]
    is not among their values), in both variants. *)
Theorem null_parameters_decode_empty event :
  (∃ request,
     Lambda.createLambdaRequest event = Ok request
     ∧ (Event.pathParameters event = None -> Lambda.pathParameters request = ∅)
     ∧ (Event.queryStringParameters event = None ->
        Lambda.queryStringParameters request = ∅))
  ∧ (∃ request,
       Lambda_part001.createLambdaRequest event = Ok request
       ∧ (Event.pathParameters event = None -> Lambda_part001.params request = ∅)
       ∧ (Event.queryStringParameters event = None ->
          Lambda_part001.query request = ∅)).
Proof.
  split.
  - destruct (createLambdaRequest_returns event) as [request Hreq].
    exists request. split; [exact Hreq|].
    unfold Lambda.createLambdaRequest, bind in Hreq.
    destruct (if bool_decide _ then _ else _) as [parsed|]; [|discriminate].
    injection Hreq as <-. simpl. split; intros ->; reflexivity.
  - destruct (createLambdaRequest_part001_returns event) as [request Hreq].
    exists request. split; [exact Hreq|].
    unfold Lambda_part001.createLambdaRequest, bind in Hreq.
    destruct (try_catch _ _) as [parsed|]; [|discriminate].
    injection Hreq as <-. simpl. split; intros ->; reflexivity.
Qed.

End DecoderTheory.

(** ** The handler wrapper *)

Section WrapperTheory.
Context {rt : Runtime}.
Implicit Types (event : Event.APIGatewayProxyEvent) (context : Context)
  (st : store) (fuel : nat).

(** The container never writes to the log of notified errors. *)
Lemma exec_keeps_notified (svc : string -> M value) c :
  (∀ m st r st', svc m st = Some (r, st') -> notified st' = notified st) ->
  ∀ {R} (a : action R) st r st',
    exec svc c a st = Some (r, st') -> notified st' = notified st.
Proof.
  intros Hsvc R a.
  induction a as [r0|e|m k IH|key k IH|k IH|]; intros st r st'; simpl;
    [| | | | |discriminate].
  - intros [= <- <-]. reflexivity.
  - intros [= <- <-]. reflexivity.
  - destruct (svc m st) as [[r0 st0]|] eqn:Hm; [|discriminate].
    intros Hk. apply IH in Hk. apply Hsvc in Hm. congruence.
  - apply IH.
  - intros Hk. apply IH in Hk. exact Hk.
Qed.

Lemma service_keeps_notified fuel c name st r st' :
  service fuel c name st = Some (r, st') -> notified st' = notified st.
Proof.
  revert name st r st'.
  induction fuel as [|fuel IH]; intros name st r st' Hcall;
    apply service_inv in Hcall
      as [->|(fuel' & init & r0 & st0 & Hfuel & _ & He & _ & ->)];
    try reflexivity; [discriminate|].
  injection Hfuel as <-.
  apply (exec_keeps_notified _ c IH) in He. exact He.
Qed.

Lemma settle_keeps_notified {R} fuel c (p : action R) st r st' :
  settle fuel c p st = Some (r, st') -> notified st' = notified st.
Proof.
  apply exec_keeps_notified. intros m s1 r1 s2. apply service_keeps_notified.
Qed.

(** The encoder throws nothing but the [TypeError] of [json.length]. *)
Lemma createLambdaProxyResponse_throws response t :
  createLambdaProxyResponse response = Throw t ->
  t = ErrorObject TypeError_length_of_undefined.
Proof.
  unfold createLambdaProxyResponse.
  destruct (JSON_stringify (data response)); [discriminate|]. congruence.
Qed.

(** The [catch] block of src/Lambda.ts on an [Error] object. *)
Lemma restApiProxy_catch w handler fuel event context st (error : JsError) st' :
  Lambda.attempt w handler fuel event context st = Some (Throw error, st') ->
  Lambda.restApiProxy w handler fuel event context st
    = Some (Ok (error_wire error), st').
Proof.
  intros Hattempt. unfold Lambda.restApiProxy, catchM. rewrite Hattempt.
  unfold bindM, lift. simpl caught_response. cbv beta iota.
  rewrite createLambdaProxyResponse_internal_error. reflexivity.
Qed.

(** The [catch] block of the variant with [registerErrorHandler] on an
    [Error] object. *)
Lemma restApiProxy_part001_catch w handler fuel event context st
    (error : JsError) st' :
  Lambda_part001.attempt w handler fuel event context st = Some (Throw error, st') ->
  Lambda_part001.restApiProxy w handler fuel event context st
    = Some (Ok (error_wire error),
            match Lambda_part001.errorHandler w with
            | Some _ => log_notified error st'
            | None => st'
            end).
Proof.
  intros Hattempt. unfold Lambda_part001.restApiProxy, catchM. rewrite Hattempt.
  unfold bindM, Lambda_part001.handleError, lift. simpl caught_response.
  cbv beta iota. rewrite createLambdaProxyResponse_internal_error.
  destruct (Lambda_part001.errorHandler w); reflexivity.
Qed.

(** What leaves the [try] block is what the awaited handler threw, or the
    [TypeError] of the encoder. *)
Lemma attempt_throws w handler fuel event context request st t st' :
  Lambda.createLambdaRequest event = Ok request ->
  Lambda.attempt w handler fuel event context st = Some (Throw t, st') ->
  await_call fuel (Lambda.container w) (handler request context) st
    = Some (Throw t, st')
  ∨ t = ErrorObject TypeError_length_of_undefined.
Proof.
  intros Hreq. unfold Lambda.attempt, bindM, lift. rewrite Hreq.
  destruct (await_call _ _ _ st) as [[[response|t0] st0]|]; [| |discriminate].
  - intros [= Hthrow <-]. right.
    eapply createLambdaProxyResponse_throws. exact Hthrow.
  - intros [= <- <-]. left. reflexivity.
Qed.

Lemma attempt_part001_throws w handler fuel event context request st t st' :
  Lambda_part001.createLambdaRequest event = Ok request ->
  Lambda_part001.attempt w handler fuel event context st = Some (Throw t, st') ->
  await_call fuel (Lambda_part001.container w) (handler request context) st
    = Some (Throw t, st')
  ∨ t = ErrorObject TypeError_length_of_undefined.
Proof.
  intros Hreq. unfold Lambda_part001.attempt, bindM, lift. rewrite Hreq.
  destruct (await_call _ _ _ st) as [[[response|t0] st0]|]; [| |discriminate].
  - intros [= Hthrow <-]. right.
    eapply createLambdaProxyResponse_throws. exact Hthrow.
  - intros [= <- <-]. left. reflexivity.
Qed.

(** An error of the handler is an error of the [try] block. *)
Lemma attempt_handler_error w handler fuel event context request st error st' :
  Lambda.createLambdaRequest event = Ok request ->
  await_call fuel (Lambda.container w) (handler request context) st
    = Some (Throw error, st') ->
  Lambda.attempt w handler fuel event context st = Some (Throw error, st').
Proof.
  intros Hreq Hcall. unfold Lambda.attempt, bindM, lift.
  rewrite Hreq, Hcall. reflexivity.
Qed.

Lemma attempt_part001_handler_error w handler fuel event context request st error st' :
  Lambda_part001.createLambdaRequest event = Ok request ->
  await_call fuel (Lambda_part001.container w) (handler request context) st
    = Some (Throw error, st') ->
  Lambda_part001.attempt w handler fuel event context st = Some (Throw error, st').
Proof.
  intros Hreq Hcall. unfold Lambda_part001.attempt, bindM, lift.
  rewrite Hreq, Hcall. reflexivity.
Qed.

(** The [catch] block itself throws only on a caught [null] or
    [undefined]. *)
Lemma restApiProxy_throws w handler fuel event context st t st' :
  Lambda.restApiProxy w handler fuel event context st = Some (Throw t, st') ->
  Lambda.attempt w handler fuel event context st = Some (Throw ThrownNull, st')
  ∨ Lambda.attempt w handler fuel event context st
      = Some (Throw ThrownUndefined, st').
Proof.
  unfold Lambda.restApiProxy, catchM.
  destruct (Lambda.attempt _ _ _ _ _ _) as [[[wire|caught] st0]|];
    [discriminate| |discriminate].
  unfold bindM, lift. destruct caught as [error| | |text]; simpl.
  - rewrite createLambdaProxyResponse_internal_error. discriminate.
  - intros [= _ <-]. left. reflexivity.
  - intros [= _ <-]. right. reflexivity.
  - discriminate.
Qed.

Lemma restApiProxy_part001_throws w handler fuel event context st t st' :
  Lambda_part001.restApiProxy w handler fuel event context st = Some (Throw t, st') ->
  Lambda_part001.attempt w handler fuel event context st
    = Some (Throw ThrownNull, st')
  ∨ Lambda_part001.attempt w handler fuel event context st
      = Some (Throw ThrownUndefined, st').
Proof.
  unfold Lambda_part001.restApiProxy, catchM.
  destruct (Lambda_part001.attempt _ _ _ _ _ _) as [[[wire|caught] st0]|];
    [discriminate| |discriminate].
  unfold bindM, Lambda_part001.handleError, lift.
  destruct caught as [error| | |text]; simpl.
  - rewrite createLambdaProxyResponse_internal_error.
    destruct (Lambda_part001.errorHandler w); discriminate.
  - intros [= _ <-]. left. reflexivity.
  - intros [= _ <-]. right. reflexivity.
  - destruct (Lambda_part001.errorHandler w); discriminate.
Qed.

(** The text of the [catch] block for an [Error] object, with its stack
    split into lines. *)
Lemma error_body_lines (error : JsError) :
  error_body error
    = error_text (e_name error) (e_message error) (stack_lines error)
  ∧ stack_split (e_stack error) (stack_lines error).
Proof.
  split; [reflexivity|]. unfold stack_split, stack_lines.
  destruct (e_stack error) as [stack|]; [|reflexivity].
  split; [apply split_lines_nonempty|].
  split; [apply join_split_lines | apply split_lines_no_newline].
Qed.

Lemma error_text_includes_message (name message : string) (lines : list string) :
  plain message ->
  includes (dquote ++ "message" ++ dquote ++ ":" ++ dquote ++ message ++ dquote)%string
    (error_text name message lines) = true.
Proof.
  intros Hplain. unfold error_text, join.
  set (first := (QuoteJSONString "name" ++ ":" ++ QuoteJSONString name)%string).
  set (last := (QuoteJSONString "stack" ++ ":" ++ _)%string).
  unfold QuoteJSONString at 1 2. rewrite (quote_code_units_plain message Hplain).
  change (quote_code_units "message") with "message"%string.
  set (needle := (dquote ++ "message" ++ dquote ++ ":" ++ dquote ++ message ++ dquote)%string).
  replace ("{" ++ (first ++ "," ++
             ((dquote ++ "message" ++ dquote) ++ ":" ++ dquote ++ message ++ dquote)
             ++ "," ++ last) ++ "}")%string
    with (("{" ++ first ++ ",") ++ needle ++ ("," ++ last ++ "}"))%string.
  - apply includes_append.
  - unfold needle. rewrite !string_append_assoc. reflexivity.
Qed.

(** C3, as amended.  In [restApiProxy], when the awaited handler throws an
    [Error] object (an error of its own or one of the container, by a
    [throw] or by a rejection), the wrapper answers with status 500, the
    JSON content-type and the JSON text of [{ name, message, stack }]: the
    name and the message of the error and its stack trace split at the line
    feeds (no lines when it has no stack); for a message without quote,
    backslash and control characters the body contains
    ["message":"<message>"].  A thrown string is answered with status 500 and
    the body [{"stack":[]}].  Of the values thrown here ([Error] objects,
    strings, [null], [undefined]) the wrapper settles with an error only on
    [null] and [undefined], on which the [catch] block itself throws.  The
    decoder throws nothing.  This holds in src/Lambda.ts and in the variant
    with [registerErrorHandler]. *)
Theorem restApiProxy_answers_errors_with_500 :
  (∀ w handler fuel event context request st (error : JsError) st',
     Lambda.createLambdaRequest event = Ok request ->
     await_call fuel (Lambda.container w) (handler request context) st
       = Some (Throw error, st') ->
     ∃ wire lines,
       Lambda.restApiProxy w handler fuel event context st = Some (Ok wire, st')
       ∧ statusCode wire = 500%Z
       ∧ headers wire !! "content-type" = Some "application/json"%string
       ∧ body wire = error_text (e_name error) (e_message error) lines
       ∧ stack_split (e_stack error) lines
       ∧ (plain (e_message error) ->
          includes (dquote ++ "message" ++ dquote ++ ":" ++
                    dquote ++ e_message error ++ dquote)%string (body wire) = true))
  ∧ (∀ w handler fuel event context request st (error : JsError) st',
       Lambda_part001.createLambdaRequest event = Ok request ->
       await_call fuel (Lambda_part001.container w) (handler request context) st
         = Some (Throw error, st') ->
       ∃ wire lines st'',
         Lambda_part001.restApiProxy w handler fuel event context st
           = Some (Ok wire, st'')
         ∧ statusCode wire = 500%Z
         ∧ headers wire !! "content-type" = Some "application/json"%string
         ∧ body wire = error_text (e_name error) (e_message error) lines
         ∧ stack_split (e_stack error) lines
         ∧ (plain (e_message error) ->
            includes (dquote ++ "message" ++ dquote ++ ":" ++
                      dquote ++ e_message error ++ dquote)%string (body wire) = true))
  ∧ (∀ w handler fuel event context request st text st',
       Lambda.createLambdaRequest event = Ok request ->
       await_call fuel (Lambda.container w) (handler request context) st
         = Some (Throw (ThrownString text), st') ->
       ∃ wire,
         Lambda.restApiProxy w handler fuel event context st = Some (Ok wire, st')
         ∧ statusCode wire = 500%Z
         ∧ body wire = ("{" ++ dquote ++ "stack" ++ dquote ++ ":[]}")%string)
  ∧ (∀ w handler fuel event context request st text st',
       Lambda_part001.createLambdaRequest event = Ok request ->
       await_call fuel (Lambda_part001.container w) (handler request context) st
         = Some (Throw (ThrownString text), st') ->
       ∃ wire st'',
         Lambda_part001.restApiProxy w handler fuel event context st
           = Some (Ok wire, st'')
         ∧ statusCode wire = 500%Z
         ∧ body wire = ("{" ++ dquote ++ "stack" ++ dquote ++ ":[]}")%string)
  ∧ (∀ w handler fuel event context request st t st',
       Lambda.createLambdaRequest event = Ok request ->
       Lambda.restApiProxy w handler fuel event context st = Some (Throw t, st') ->
       await_call fuel (Lambda.container w) (handler request context) st
         = Some (Throw ThrownNull, st')
       ∨ await_call fuel (Lambda.container w) (handler request context) st
           = Some (Throw ThrownUndefined, st'))
  ∧ (∀ w handler fuel event context request st t st',
       Lambda_part001.createLambdaRequest event = Ok request ->
       Lambda_part001.restApiProxy w handler fuel event context st
         = Some (Throw t, st') ->
       await_call fuel (Lambda_part001.container w) (handler request context) st
         = Some (Throw ThrownNull, st')
       ∨ await_call fuel (Lambda_part001.container w) (handler request context) st
           = Some (Throw ThrownUndefined, st'))
  ∧ (∀ event,
       (∃ request, Lambda.createLambdaRequest event = Ok request)
       ∧ ∃ request, Lambda_part001.createLambdaRequest event = Ok request).
Proof.
  split; [|split; [|split; [|split; [|split; [|split]]]]].
  - intros w handler fuel event context request st error st' Hreq Hcall.
    pose proof (attempt_handler_error _ _ _ _ _ _ _ _ _ Hreq Hcall) as Hattempt.
    destruct (error_body_lines error) as [Hbody Hlines].
    exists (error_wire error), (stack_lines error).
    split; [apply restApiProxy_catch; exact Hattempt|].
    split; [reflexivity|]. split; [apply response_headers_lookup|].
    split; [exact Hbody|]. split; [exact Hlines|].
    intros Hplain.
    exact (error_text_includes_message _ _ (stack_lines error) Hplain).
  - intros w handler fuel event context request st error st' Hreq Hcall.
    pose proof (attempt_part001_handler_error _ _ _ _ _ _ _ _ _ Hreq Hcall)
      as Hattempt.
    destruct (error_body_lines error) as [Hbody Hlines].
    eexists (error_wire error), (stack_lines error), _.
    split; [apply restApiProxy_part001_catch; exact Hattempt|].
    split; [reflexivity|]. split; [apply response_headers_lookup|].
    split; [exact Hbody|]. split; [exact Hlines|].
    intros Hplain.
    exact (error_text_includes_message _ _ (stack_lines error) Hplain).
  - intros w handler fuel event context request st text st' Hreq Hcall.
    pose proof (attempt_handler_error _ _ _ _ _ _ _ _ _ Hreq Hcall) as Hattempt.
    unfold Lambda.restApiProxy, catchM. rewrite Hattempt.
    eexists. split; [reflexivity|]. split; reflexivity.
  - intros w handler fuel event context request st text st' Hreq Hcall.
    pose proof (attempt_part001_handler_error _ _ _ _ _ _ _ _ _ Hreq Hcall)
      as Hattempt.
    unfold Lambda_part001.restApiProxy, catchM. rewrite Hattempt.
    unfold bindM, Lambda_part001.handleError, lift. simpl.
    destruct (Lambda_part001.errorHandler w);
      (do 2 eexists; split; [reflexivity|]; split; reflexivity).
  - intros w handler fuel event context request st t st' Hreq Hthrows.
    apply restApiProxy_throws in Hthrows as [Hattempt|Hattempt];
      apply (attempt_throws _ _ _ _ _ _ _ _ _ Hreq) in Hattempt
        as [Hcall|Hbad]; try discriminate; auto.
  - intros w handler fuel event context request st t st' Hreq Hthrows.
    apply restApiProxy_part001_throws in Hthrows as [Hattempt|Hattempt];
      apply (attempt_part001_throws _ _ _ _ _ _ _ _ _ Hreq) in Hattempt
        as [Hcall|Hbad]; try discriminate; auto.
  - intros event. split.
    + apply createLambdaRequest_returns.
    + apply createLambdaRequest_part001_returns.
Qed.

(** [handle] in the variant with [registerErrorHandler]: what the call
    throws is notified and thrown again. *)
Lemma handle_part001_sync_throw {E O} w (handler : Lambda_part001.ContainerLambdaHandlerFunction E O)
    fuel (event : E) context st error :
  handler event context = SyncThrow error ->
  Lambda_part001.handle w handler fuel event context st
    = Some (Throw error,
            match Lambda_part001.errorHandler w with
            | Some _ => log_notified error st
            | None => st
            end).
Proof.
  intros Hcall. unfold Lambda_part001.handle. rewrite Hcall.
  unfold bindM, Lambda_part001.handleError, throw.
  destruct (Lambda_part001.errorHandler w); reflexivity.
Qed.

(** ... but the promise of an [async] handler is returned as it is: when it
    rejects, the rejection reaches the hosting runtime and the error handler
    has not been called. *)
Lemma handle_part001_rejection {E O} w (handler : Lambda_part001.ContainerLambdaHandlerFunction E O)
    fuel (event : E) context (p : action O) st error st' :
  handler event context = Promise p ->
  settle fuel (Lambda_part001.container w) p st = Some (Throw error, st') ->
  Lambda_part001.handle w handler fuel event context st = Some (Throw error, st')
  ∧ notified st' = notified st.
Proof.
  intros Hcall Hsettle. unfold Lambda_part001.handle. rewrite Hcall.
  split; [exact Hsettle|]. eapply settle_keeps_notified; exact Hsettle.
Qed.

(** [handle] in src/Lambda.ts passes every outcome of the handler on. *)
Lemma handle_passes_on {E O} w (handler : Lambda.ContainerLambdaHandlerFunction E O)
    fuel (event : E) context st :
  Lambda.handle w handler fuel event context st
    = await_call fuel (Lambda.container w) (handler event context) st.
Proof. unfold Lambda.handle, await_call. destruct (handler event context); reflexivity. Qed.

(** C9.  The answer of [restApiProxy] is a function of the event and of
    the outcome of the handler alone: two runs on the same event, from any
    two stores and with any fuel, in which the handler settles the same
    way, settle the same way, and unless the handler threw [null] or
    [undefined] both hand back one wire response: the same status, headers
    and body.  The decoder and the encoder do not read the store. *)
Theorem restApiProxy_deterministic :
  (∀ w handler event context request fuel1 fuel2 st1 st2 outcome st1' st2',
     Lambda.createLambdaRequest event = Ok request ->
     await_call fuel1 (Lambda.container w) (handler request context) st1
       = Some (outcome, st1') ->
     await_call fuel2 (Lambda.container w) (handler request context) st2
       = Some (outcome, st2') ->
     ∃ answer,
       Lambda.restApiProxy w handler fuel1 event context st1 = Some (answer, st1')
       ∧ Lambda.restApiProxy w handler fuel2 event context st2 = Some (answer, st2')
       ∧ (outcome ≠ Throw ThrownNull -> outcome ≠ Throw ThrownUndefined ->
          ∃ wire, answer = Ok wire))
  ∧ (∀ w handler event context request fuel1 fuel2 st1 st2 outcome st1' st2',
       Lambda_part001.createLambdaRequest event = Ok request ->
       await_call fuel1 (Lambda_part001.container w) (handler request context) st1
         = Some (outcome, st1') ->
       await_call fuel2 (Lambda_part001.container w) (handler request context) st2
         = Some (outcome, st2') ->
       ∃ answer st1'' st2'',
         Lambda_part001.restApiProxy w handler fuel1 event context st1
           = Some (answer, st1'')
         ∧ Lambda_part001.restApiProxy w handler fuel2 event context st2
           = Some (answer, st2'')
         ∧ (outcome ≠ Throw ThrownNull -> outcome ≠ Throw ThrownUndefined ->
            ∃ wire, answer = Ok wire)).
Proof.
  split.
  - intros w handler event context request fuel1 fuel2 st1 st2 outcome st1' st2'
      Hreq H1 H2.
    unfold Lambda.restApiProxy, catchM, Lambda.attempt, bindM, lift.
    rewrite Hreq, H1, H2.
    destruct outcome as [response|[error| | |text]].
    + destruct (createLambdaProxyResponse response) as [wire|t] eqn:Hwire;
        [eauto 10|].
      apply createLambdaProxyResponse_throws in Hwire as ->. simpl.
      rewrite createLambdaProxyResponse_internal_error. eauto 10.
    + simpl. rewrite createLambdaProxyResponse_internal_error. eauto 10.
    + eexists. split; [reflexivity|]. split; [reflexivity|]. congruence.
    + eexists. split; [reflexivity|]. split; [reflexivity|]. congruence.
    + eexists. split; [reflexivity|]. split; [reflexivity|]. eauto.
  - intros w handler event context request fuel1 fuel2 st1 st2 outcome st1' st2'
      Hreq H1 H2.
    unfold Lambda_part001.restApiProxy, catchM, Lambda_part001.attempt, bindM,
      Lambda_part001.handleError, lift.
    rewrite Hreq, H1, H2.
    destruct outcome as [response|[error| | |text]].
    + destruct (createLambdaProxyResponse response) as [wire|t] eqn:Hwire;
        [eauto 10|].
      apply createLambdaProxyResponse_throws in Hwire as ->. simpl.
      rewrite createLambdaProxyResponse_internal_error.
      destruct (Lambda_part001.errorHandler w); eauto 10.
    + simpl. rewrite createLambdaProxyResponse_internal_error.
      destruct (Lambda_part001.errorHandler w); eauto 10.
    + do 3 eexists. split; [reflexivity|]. split; [reflexivity|]. congruence.
    + do 3 eexists. split; [reflexivity|]. split; [reflexivity|]. congruence.
    + simpl. destruct (Lambda_part001.errorHandler w);
        (do 3 eexists; split; [reflexivity|]; split; [reflexivity|]; eauto).
Qed.

End WrapperTheory.

(** * Further properties *)

(** ** Environment.get *)

Section EnvironmentTheory.
Context {rt : Runtime}.

Lemma defined_false (v : value) : defined v = false -> v = VUndefined.
Proof. destruct v; simpl; congruence. Qed.

Lemma defined_true (v : value) : defined v = true <-> v ≠ VUndefined.
Proof. destruct v; simpl; split; congruence. Qed.

(** X1.  [Environment.get(key)] reads [this.search[key]] on a plain object:
    an own property that is not [undefined] is returned (an empty string or
    a zero like any other value); a key that is no own property but a name
    of [Object.prototype] ([toString], [constructor], ...) gives the
    inherited member and nothing is thrown; every other key, and an own
    property that is [undefined], throws the error named
    [MissingEnvironmentVariableError], whose message quotes the key and
    whose [error] property repeats the message. *)
Theorem Environment_get_spec (process_env : gmap string value) (key : string) :
  (∀ v, process_env !! key = Some v -> v ≠ VUndefined ->
        Environment_get (Environment_create process_env) key = Ok v)
  ∧ (process_env !! key = None -> is_inherited key = true ->
     Environment_get (Environment_create process_env) key = Ok (VInherited key))
  ∧ (process_env !! key = Some VUndefined
     ∨ process_env !! key = None ∧ is_inherited key = false ->
     ∃ e : JsError,
       Environment_get (Environment_create process_env) key = Throw e
       ∧ e_name e = "MissingEnvironmentVariableError"%string
       ∧ e_message e =
           ("Cannot find " ++ dquote ++ key ++ dquote ++ " in the environment!")%string
       ∧ e_error e = Some (e_message e)).
Proof.
  unfold Environment_get, Environment_create, js_get. simpl. split; [|split].
  - intros v -> Hv. apply defined_true in Hv. rewrite Hv. reflexivity.
  - intros -> ->. reflexivity.
  - intros [-> | [-> ->]]; simpl;
      (eexists; split; [reflexivity|]; repeat split).
Qed.

End EnvironmentTheory.

(** ** The cache of the container *)

Section CacheTheory.
Context {rt : Runtime}.
Implicit Types (c : Container) (st : store) (name : string) (v : value).

(** A relation on stores that holds across [alloc] and across the awaited
    services holds across the run of an [async] body. *)
Lemma exec_preserves (Rel : store -> store -> Prop)
    (svc : string -> M value) c :
  (∀ st, Rel st st) ->
  (∀ st1 st2 st3, Rel st1 st2 -> Rel st2 st3 -> Rel st1 st3) ->
  (∀ st, Rel st (alloc st).2) ->
  (∀ m st r st', svc m st = Some (r, st') -> Rel st st') ->
  ∀ {R} (a : action R) st r st',
    exec svc c a st = Some (r, st') -> Rel st st'.
Proof.
  intros Hrefl Htrans Halloc Hsvc R a.
  induction a as [r0|e|m k IH|key k IH|k IH|]; intros st r st'; simpl;
    [| | | | |discriminate].
  - intros [= <- <-]. apply Hrefl.
  - intros [= <- <-]. apply Hrefl.
  - destruct (svc m st) as [[r0 st0]|] eqn:Hm; [|discriminate].
    intros Hk. eapply Htrans; [eapply Hsvc; exact Hm | eapply IH; exact Hk].
  - apply IH.
  - intros Hk. eapply Htrans; [apply Halloc | eapply IH; exact Hk].
Qed.

(** The outcomes of [service], with the store each one leaves. *)
Lemma service_cases fuel c name st r st' :
  service fuel c name st = Some (r, st') ->
  (st' = st
   ∧ (defined (js_get (cache st) name) = true ∧ r = Ok (js_get (cache st) name)
      ∨ js_get (cache st) name = VUndefined ∧ read_initiator c name = None
        ∧ r = Throw (ContainerMissingServiceError name)))
  ∨ ∃ fuel' init st0,
      fuel = S fuel'
      ∧ js_get (cache st) name = VUndefined
      ∧ read_initiator c name = Some init
      ∧ (exec (service fuel' c) c init (log_invoked name st) = Some (r, st0)
         ∧ match r with
           | Ok constructed => st' = set_cache name constructed st0
           | Throw _ => st' = st0
           end).
Proof.
  destruct fuel as [|fuel]; simpl;
    destruct (defined (js_get (cache st) name)) eqn:Hd;
    try (intros [= <- <-]; left; auto);
    apply defined_false in Hd;
    destruct (read_initiator c name) as [init|] eqn:Hinit;
    try (intros [= <- <-]; left; auto); try discriminate.
  destruct (exec _ c init _) as [[r0 st0]|] eqn:He; [|discriminate].
  intros Hr. right. exists fuel, init, st0.
  destruct r0; injection Hr as <- <-; auto.
Qed.

Lemma keeps_instances_refl st : keeps_instances st st.
Proof. intros k _. reflexivity. Qed.

Lemma keeps_instances_trans st1 st2 st3 :
  keeps_instances st1 st2 -> keeps_instances st2 st3 -> keeps_instances st1 st3.
Proof.
  intros H12 H23 k Hk. rewrite <- (H12 k Hk). apply H23.
  rewrite (H12 k Hk). exact Hk.
Qed.

(** A [service] call keeps what was cached when it started: by induction
    on the nesting of the initiators that run inside it. *)
Lemma service_run_keeps_instances fuel c name st r st' :
  service fuel c name st = Some (r, st') -> keeps_instances st st'.
Proof.
  revert name st r st'.
  induction fuel as [|fuel IH]; intros name st r st' Hcall;
    apply service_cases in Hcall
      as [[-> _]|(fuel' & init & st0 & Hfuel & Hundef & _ & He & Hst')];
    try apply keeps_instances_refl; [discriminate|].
  injection Hfuel as <-.
  assert (keeps_instances st st0) as Hrun.
  { apply (exec_preserves keeps_instances _ c
             keeps_instances_refl keeps_instances_trans) in He.
    - exact He.
    - intros s k _. reflexivity.
    - exact IH. }
  destruct r as [constructed|e]; subst st'; [|exact Hrun].
  intros k Hk. rewrite <- (Hrun k Hk).
  unfold js_get, set_cache. simpl.
  destruct (decide (name = k)) as [<-|Hne].
  - rewrite Hundef in Hk. discriminate.
  - rewrite lookup_insert_ne by exact Hne. reflexivity.
Qed.

(** X2.  Across a [service] call that was made while no other call was in
    progress and that has settled, for whatever name and with whatever
    outcome: an instance that was cached (not [undefined]) when the call
    started is the cached instance when it has settled, also when the
    initiators that ran in between requested services themselves.  (About
    instances built during the call this says nothing: see
    [nested_instance_is_replaced].) *)
Theorem service_keeps_instances fuel c name st r st' :
  service fuel c name st = Some (r, st') -> keeps_instances st st'.
Proof.
  intros Hcall k Hcached.
  exact (service_run_keeps_instances _ _ _ _ _ _ Hcall k Hcached).
Qed.

Lemma service_calls_keep_instances c calls st st' :
  service_calls c calls st = Some st' -> keeps_instances st st'.
Proof.
  revert st. induction calls as [|[fuel name] calls IH]; intros st; simpl.
  - intros [= <-]. apply keeps_instances_refl.
  - destruct (service fuel c name st) as [[r st1]|] eqn:Hcall; [|discriminate].
    intros Hrest. eapply keeps_instances_trans.
    + eapply service_run_keeps_instances; exact Hcall.
    + apply IH. exact Hrest.
Qed.

(** X3.  For calls made one after the other, each settled before the next
    starts and none made from inside an initiator of a call still running:
    once such a [service(name)] call has resolved to a value other than
    [undefined], a later [service(name)] resolves to that very value and
    leaves the store as it is (no initiator is invoked), however many such
    calls for any names were settled in between. *)
Theorem service_instance_is_kept c name fuel1 fuel2 calls st v st1 st2 :
  service fuel1 c name st = Some (Ok v, st1) ->
  defined v = true ->
  service_calls c calls st1 = Some st2 ->
  service fuel2 c name st2 = Some (Ok v, st2).
Proof.
  intros Hfirst Hdefined Hcalls.
  pose proof (service_resolved_cached _ _ _ _ _ _ Hfirst) as Hcached.
  pose proof (service_calls_keep_instances _ _ _ _ Hcalls name) as Hkept.
  rewrite Hcached in Hkept. specialize (Hkept Hdefined).
  rewrite <- Hkept. apply service_cached. rewrite Hkept. exact Hdefined.
Qed.

Lemma writes_invoked_only_refl st : writes_invoked_only st st.
Proof. exists []. split; [reflexivity | intros k _; reflexivity]. Qed.

Lemma writes_invoked_only_trans st1 st2 st3 :
  writes_invoked_only st1 st2 -> writes_invoked_only st2 st3 ->
  writes_invoked_only st1 st3.
Proof.
  intros (l1 & E1 & F1) (l2 & E2 & F2). exists (l2 ++ l1). split.
  - rewrite E2, E1. apply app_assoc.
  - intros k Hk. rewrite not_elem_of_app in Hk. destruct Hk as [Hk2 Hk1].
    rewrite (F2 k Hk2). apply F1. exact Hk1.
Qed.

Lemma service_writes_invoked_only fuel c name st r st' :
  service fuel c name st = Some (r, st') -> writes_invoked_only st st'.
Proof.
  revert name st r st'.
  induction fuel as [|fuel IH]; intros name st r st' Hcall;
    apply service_cases in Hcall
      as [[-> _]|(fuel' & init & st0 & Hfuel & _ & _ & He & Hst')];
    try apply writes_invoked_only_refl; [discriminate|].
  injection Hfuel as <-.
  apply (exec_preserves writes_invoked_only _ c
           writes_invoked_only_refl writes_invoked_only_trans) in He;
    [|intros s; exists []; split; [reflexivity|intros k _; reflexivity]|exact IH].
  destruct He as (l & E & F). exists (l ++ [name]). split.
  - destruct r; subst st'; simpl; rewrite E; simpl;
      rewrite <- app_assoc; reflexivity.
  - intros k Hk. rewrite not_elem_of_app, not_elem_of_cons in Hk.
    destruct Hk as [Hl [Hne _]].
    destruct r; subst st'; simpl; [rewrite lookup_insert_ne by congruence|];
      apply (F k Hl).
Qed.

Lemma occurrences_zero name (l : list string) :
  occurrences name l = 0 -> name ∉ l.
Proof.
  unfold occurrences. induction l as [|n l IH]; intros Hz; [apply not_elem_of_nil|].
  destruct (decide (n = name)) as [->|Hne].
  - rewrite filter_cons_True in Hz by reflexivity. discriminate.
  - rewrite filter_cons_False in Hz by exact Hne.
    apply not_elem_of_cons. split; [congruence | apply IH; exact Hz].
Qed.

(** X4.  A [service] call changes the cache only under names whose
    initiator it invoked: the cache entry of every name whose invocation
    count is the same after the call as before is untouched. *)
Theorem service_writes_only_built_names fuel c name st r st' :
  service fuel c name st = Some (r, st') ->
  ∀ k, invocations k st' = invocations k st -> cache st' !! k = cache st !! k.
Proof.
  intros Hcall k Hcount.
  apply service_writes_invoked_only in Hcall as (l & E & F).
  apply F. apply occurrences_zero.
  unfold invocations in Hcount. rewrite E, occurrences_app in Hcount. lia.
Qed.

(** X5.  On a container whose initiators request each other without a
    cycle, a [service(name)] that rejects leaves the cache entry of [name]
    as it was: a failed construction is not cached, so the next call tries
    again. *)
Theorem service_rejection_not_cached fuel c rank name st e st' :
  acyclic c rank ->
  service fuel c name st = Some (Throw e, st') ->
  cache st' !! name = cache st !! name.
Proof.
  intros Hacyclic Hcall.
  apply service_cases in Hcall
    as [[-> _]|(fuel' & init & st0 & _ & _ & Hinit & He & ->)]; [reflexivity|].
  assert (adds (λ n, rank n < rank name) (log_invoked name st) st0)
    as (l & E & F).
  { eapply initiator_adds_lower_rank; [exact Hacyclic| |exact Hinit|exact He].
    intros m s1 r1 s2. apply service_adds_rank. exact Hacyclic. }
  apply (exec_preserves writes_invoked_only _ c
           writes_invoked_only_refl writes_invoked_only_trans) in He;
    [|intros s; exists []; split; [reflexivity|intros k _; reflexivity]
     |intros m s1 r1 s2; apply service_writes_invoked_only].
  destruct He as (l' & E' & F').
  rewrite E in E'. apply app_inv_tail in E'. subst l'.
  rewrite (F' name); [reflexivity|].
  intros Hin. rewrite Forall_forall in F. specialize (F name Hin). simpl in F. lia.
Qed.

(** An [async] body that never awaits an unsettled promise settles when
    every service it may request does. *)
Lemma exec_settles (svc : string -> M value) c {R} (a : action R) :
  ¬ stalls a ->
  (∀ m st, requests a m -> ∃ r st', svc m st = Some (r, st')) ->
  ∀ st, ∃ r st', exec svc c a st = Some (r, st').
Proof.
  induction a as [r0|e|m k IH|key k IH|k IH|]; intros Hstalls Hsvc st; simpl.
  - eauto.
  - eauto.
  - destruct (Hsvc m st (requests_here m k)) as (r0 & st0 & ->).
    apply IH.
    + intros Hk. apply Hstalls. eapply stalls_after_service; exact Hk.
    + intros m' s Hm'. apply Hsvc. eapply requests_after_service; exact Hm'.
  - apply IH.
    + intros Hk. apply Hstalls. eapply stalls_after_env; exact Hk.
    + intros m' s Hm'. apply Hsvc. eapply requests_after_env; exact Hm'.
  - apply IH.
    + intros Hk. apply Hstalls. eapply stalls_after_new; exact Hk.
    + intros m' s Hm'. apply Hsvc. eapply requests_after_new; exact Hm'.
  - exfalso. apply Hstalls. constructor.
Qed.

(** What [this.initiator[name]] reads is an own entry or the call of an
    inherited member, which is settled at once. *)
Lemma read_initiator_cases c name init :
  read_initiator c name = Some init ->
  initiator c !! name = Some init
  ∨ ((∃ v, init = Return v) ∨ (∃ t, init = Raise t)).
Proof.
  unfold read_initiator. destruct (initiator c !! name) as [own|]; [auto|].
  destruct (is_inherited name); [|discriminate].
  intros [= <-]. right. destruct (call_inherited name); eauto.
Qed.

(** X6.  [service] waits for nothing but the initiators: on a container
    whose initiators request each other without a cycle and none of which
    awaits a promise that is never settled, [service(name)] settles (it
    resolves or rejects) from every store, given a recursion budget above
    the rank of [name]. *)
Theorem service_settles_when_acyclic c rank :
  acyclic c rank ->
  (∀ n init, initiator c !! n = Some init -> ¬ stalls init) ->
  ∀ fuel name st,
    rank name < fuel -> ∃ r st', service fuel c name st = Some (r, st').
Proof.
  intros Hacyclic Hsettling.
  induction fuel as [|fuel IH]; intros name st Hrank; [lia|].
  simpl. destruct (defined (js_get (cache st) name)); [eauto|].
  destruct (read_initiator c name) as [init|] eqn:Hinit; [|eauto].
  destruct (exec_settles (service fuel c) c init) with (st := log_invoked name st)
    as (r0 & st0 & ->).
  - destruct (read_initiator_cases _ _ _ Hinit) as [Hown|[[v ->]|[t ->]]].
    + eapply Hsettling. exact Hown.
    + intros Hs. inversion Hs.
    + intros Hs. inversion Hs.
  - intros m s Hm. apply IH.
    pose proof (read_initiator_requests _ _ _ _ Hinit Hm) as Hown.
    pose proof (Hacyclic name init m Hown Hm). lia.
  - destruct r0; eauto.
Qed.

End CacheTheory.

(** ** createLambdaProxyResponse *)

Section EncoderFurther.
Context {rt : Runtime}.




End EncoderFurther.

(** ** createLambdaRequest *)

Section DecoderFurther.
Context {rt : Runtime}.
Implicit Types (event : Event.APIGatewayProxyEvent).

(** X10.  A raw body that is [null] or the empty string is never handed to
    [JSON.parse]: whatever the headers and whatever the parser would say, the
    body of the request is the default, [undefined] in src/Lambda.ts and
    [{}] in the variant with [registerErrorHandler]. *)
Theorem empty_body_is_default event :
  Event.body event = None ∨ Event.body event = Some EmptyString ->
  (∃ request,
     Lambda.createLambdaRequest event = Ok request
     ∧ Lambda.body request = JUndefined)
  ∧ (∃ request,
       Lambda_part001.createLambdaRequest event = Ok request
       ∧ Lambda_part001.body request = JObj []).
Proof.
  intros Hbody.
  unfold Lambda.createLambdaRequest, Lambda_part001.createLambdaRequest.
  destruct Hbody as [-> | ->]; simpl;
    (split; [destruct (bool_decide _)|]; eexists; split; reflexivity).
Qed.

(** X11.  Everything but the body is copied from the event: in src/Lambda.ts
    the method, path, headers and the other pass-through fields, with the
    two parameter objects unchanged when they are not [null]; in the variant
    with [registerErrorHandler] also [id] and [stage] from the request
    context.  Neither the raw body nor the content-type has a part in
    them. *)
Theorem request_fields_are_copied event :
  (∀ request,
     Lambda.createLambdaRequest event = Ok request ->
     Lambda.httpMethod request = Event.httpMethod event
     ∧ Lambda.path request = Event.path event
     ∧ Lambda.headers request = Event.headers event
     ∧ Lambda.pathParameters request = default ∅ (Event.pathParameters event)
     ∧ Lambda.queryStringParameters request
         = default ∅ (Event.queryStringParameters event)
     ∧ Lambda.multiValueHeaders request = Event.multiValueHeaders event
     ∧ Lambda.multiValueQueryStringParameters request
         = Event.multiValueQueryStringParameters event
     ∧ Lambda.isBase64Encoded request = Event.isBase64Encoded event
     ∧ Lambda.stageVariables request = Event.stageVariables event
     ∧ Lambda.requestContext request = Event.requestContext event
     ∧ Lambda.resource request = Event.resource event)
  ∧ (∀ request,
       Lambda_part001.createLambdaRequest event = Ok request ->
       Lambda_part001.id request = Event.requestId (Event.requestContext event)
       ∧ Lambda_part001.stage request = Event.stage (Event.requestContext event)
       ∧ Lambda_part001.method request = Event.httpMethod event
       ∧ Lambda_part001.path request = Event.path event
       ∧ Lambda_part001.headers request = Event.headers event
       ∧ Lambda_part001.params request = default ∅ (Event.pathParameters event)
       ∧ Lambda_part001.query request
           = default ∅ (Event.queryStringParameters event)).
Proof.
  split; intros request Hreq.
  - unfold Lambda.createLambdaRequest, bind in Hreq.
    destruct (if bool_decide _ then _ else _) as [parsed|]; [|discriminate].
    injection Hreq as <-. simpl.
    destruct (Event.pathParameters event), (Event.queryStringParameters event);
      repeat split.
  - unfold Lambda_part001.createLambdaRequest, bind in Hreq.
    destruct (try_catch _ _) as [parsed|]; [|discriminate].
    injection Hreq as <-. simpl.
    destruct (Event.pathParameters event), (Event.queryStringParameters event);
      repeat split.
Qed.

End DecoderFurther.

(** ** restApiProxy and handle *)

Section WrapperFurther.
Context {rt : Runtime}.
Implicit Types (event : Event.APIGatewayProxyEvent) (context : Context)
  (st : store) (fuel : nat).




(** X13.  When the handler resolves with a response whose payload is
    [undefined] (a 204 with no data, say), the status of the handler is
    lost: the encoder throws inside the [try] block and [restApiProxy]
    answers 500 with the [TypeError]. *)
Theorem restApiProxy_undefined_payload_is_500 :
  (∀ w handler fuel event context request st response st',
     Lambda.createLambdaRequest event = Ok request ->
     await_call fuel (Lambda.container w) (handler request context) st
       = Some (Ok response, st') ->
     data response = JUndefined ->
     Lambda.restApiProxy w handler fuel event context st
       = Some (Ok (error_wire TypeError_length_of_undefined), st'))
  ∧ (∀ w handler fuel event context request st response st',
       Lambda_part001.createLambdaRequest event = Ok request ->
       await_call fuel (Lambda_part001.container w) (handler request context) st
         = Some (Ok response, st') ->
       data response = JUndefined ->
       ∃ st'',
         Lambda_part001.restApiProxy w handler fuel event context st
           = Some (Ok (error_wire TypeError_length_of_undefined), st'')).
Proof.
  split; intros w handler fuel event context request st response st'
    Hreq Hcall Hdata.
  - apply restApiProxy_catch.
    unfold Lambda.attempt, bindM, lift. rewrite Hreq, Hcall.
    rewrite (createLambdaProxyResponse_undefined _ Hdata). reflexivity.
  - eexists. apply restApiProxy_part001_catch.
    unfold Lambda_part001.attempt, bindM, lift. rewrite Hreq, Hcall.
    rewrite (createLambdaProxyResponse_undefined _ Hdata). reflexivity.
Qed.


(** X15.  [handle] in the variant with [registerErrorHandler]: when the
    call of the handler throws, the registered error handler is called with
    what was thrown (and only then) and the same value is thrown on; when
    the call returns a promise, the invocation settles exactly as that
    promise does, and the error handler is not called whether it resolves or
    rejects. *)
Theorem handle_part001_outcomes {E O} w
    (handler : Lambda_part001.ContainerLambdaHandlerFunction E O)
    fuel (event : E) context st :
  (∀ error,
     handler event context = SyncThrow error ->
     ∃ st',
       Lambda_part001.handle w handler fuel event context st
         = Some (Throw error, st')
       ∧ notified st' =
           match Lambda_part001.errorHandler w with
           | Some _ => error :: notified st
           | None => notified st
           end)
  ∧ (∀ p r st',
       handler event context = Promise p ->
       settle fuel (Lambda_part001.container w) p st = Some (r, st') ->
       Lambda_part001.handle w handler fuel event context st = Some (r, st')
       ∧ notified st' = notified st).
Proof.
  split.
  - intros error Hcall.
    rewrite (handle_part001_sync_throw _ _ _ _ _ _ error Hcall).
    eexists. split; [reflexivity|].
    destruct (Lambda_part001.errorHandler w); reflexivity.
  - intros p r st' Hcall Hsettle. unfold Lambda_part001.handle. rewrite Hcall.
    split; [exact Hsettle|]. eapply settle_keeps_notified; exact Hsettle.
Qed.

End WrapperFurther.

(** ** The example handler *)

Section ExampleTheory.
Context {rt : Runtime}.
Variable sdk : value -> value -> result jsval.
Implicit Types (process_env : gmap string value) (st : store).

Lemma example_read_initiator process_env :
  read_initiator (Example.container process_env) "aws.s3"
    = Some (NewObject (λ l, Return (VRef l))).
Proof.
  apply read_initiator_own. unfold Example.container, Example.containerInitiator.
  simpl. apply lookup_singleton_eq.
Qed.

(** The S3 client is built by the first request for it and cached. *)
Lemma example_service_s3 process_env fuel st :
  ∃ s3 st1,
    service (S fuel) (Example.container process_env) "aws.s3" st
      = Some (Ok s3, st1)
    ∧ defined s3 = true
    ∧ js_get (cache st1) "aws.s3" = s3
    ∧ notified st1 = notified st.
Proof.
  simpl. destruct (defined (js_get (cache st) "aws.s3")) eqn:Hd.
  - eauto 10.
  - rewrite example_read_initiator. simpl.
    do 2 eexists. split; [reflexivity|]. split; [reflexivity|].
    split; [|reflexivity].
    unfold js_get. simpl. rewrite lookup_insert_eq. reflexivity.
Qed.

(** What the wrapped example handler answers once the client is there. *)
Lemma example_action_run process_env fuel event context st s3 st1 :
  service fuel (Example.container process_env) "aws.s3" st = Some (Ok s3, st1) ->
  Example.action sdk process_env fuel event context st =
    Some (match Environment_get (Environment_create process_env)
                  "MY_S3_BUCKET" with
          | Throw t => bind (caught_response t) createLambdaProxyResponse
          | Ok bucket =>
              match sdk s3 bucket with
              | Throw t => bind (caught_response t) createLambdaProxyResponse
              | Ok url =>
                  createLambdaProxyResponse
                    {| status := OK; data := JObj [("upload_url", url)] |}
              end
          end, st1).
Proof.
  intros Hs3.
  destruct (createLambdaRequest_returns event) as [request Hreq].
  unfold Example.action, Lambda.restApiProxy, catchM, Lambda.attempt, bindM, lift.
  rewrite Hreq. simpl. unfold settle. simpl. rewrite Hs3. simpl.
  unfold env, Environment_createFromNodeProcess. simpl.
  destruct (Environment_get _ _) as [bucket|t]; simpl.
  - destruct (sdk s3 bucket) as [url|t]; simpl.
    + reflexivity.
    + destruct (caught_response t); reflexivity.
  - destruct (caught_response t); reflexivity.
Qed.

(** X16.  The example [action] with no [MY_S3_BUCKET] in the environment
    answers every event with the 500 response of the
    [MissingEnvironmentVariableError]; the S3 client has been built and
    cached all the same. *)
Theorem example_missing_bucket process_env fuel event context st :
  js_get process_env "MY_S3_BUCKET" = VUndefined ->
  ∃ wire st1,
    Example.action sdk process_env (S fuel) event context st
      = Some (Ok wire, st1)
    ∧ statusCode wire = 500%Z
    ∧ body wire = error_body (MissingEnvironmentVariableError "MY_S3_BUCKET")
    ∧ defined (js_get (cache st1) "aws.s3") = true.
Proof.
  intros Hmissing.
  destruct (example_service_s3 process_env fuel st)
    as (s3 & st1 & Hs3 & Hdefined & Hcached & _).
  rewrite (example_action_run _ _ _ _ _ _ _ Hs3).
  assert (Environment_get (Environment_create process_env) "MY_S3_BUCKET"
          = Throw (MissingEnvironmentVariableError "MY_S3_BUCKET")) as ->.
  { unfold Environment_get, Environment_create. cbn [search].
    rewrite Hmissing. reflexivity. }
  cbn [bind caught_response]. rewrite createLambdaProxyResponse_internal_error.
  do 2 eexists. split; [reflexivity|].
  split; [reflexivity|]. split; [reflexivity|].
  rewrite Hcached. exact Hdefined.
Qed.

(** X17.  With a bucket name in the environment and a presigned URL from
    the SDK, the example [action] answers every event, from every store,
    with status 200 and the JSON text of [{ upload_url }]. *)
Theorem example_success process_env bucket url fuel event context st :
  js_get process_env "MY_S3_BUCKET" = bucket ->
  bucket ≠ VUndefined ->
  (∀ s3, sdk s3 bucket = Ok url) ->
  ∃ json st1,
    JSON_stringify (JObj [("upload_url", url)]) = Some json
    ∧ Example.action sdk process_env (S fuel) event context st
      = Some (Ok {| statusCode := 200;
                    headers := response_headers json;
                    body := json |}, st1).
Proof.
  intros Hbucket Hdefined Hsdk.
  destruct (example_service_s3 process_env fuel st)
    as (s3 & st1 & Hs3 & _).
  rewrite (example_action_run _ _ _ _ _ _ _ Hs3).
  assert (Environment_get (Environment_create process_env) "MY_S3_BUCKET"
          = Ok bucket) as ->.
  { unfold Environment_get, Environment_create. cbn [search].
    rewrite Hbucket. apply defined_true in Hdefined. rewrite Hdefined.
    reflexivity. }
  rewrite Hsdk. do 2 eexists. split; reflexivity.
Qed.

(** X18.  Two invocations of the example [action] in a row on one
    container: the second, whatever its event and context, gives the answer
    of the first and leaves the store as it is, so the S3 client of the
    first invocation is reused and no initiator runs again. *)
Theorem example_client_is_reused process_env fuel1 fuel2
    event1 context1 event2 context2 st r1 st1 :
  Example.action sdk process_env fuel1 event1 context1 st = Some (r1, st1) ->
  Example.action sdk process_env fuel2 event2 context2 st1 = Some (r1, st1)
  ∧ invocations "aws.s3" st1 <= invocations "aws.s3" st + 1.
Proof.
  intros Hfirst.
  destruct (service fuel1 (Example.container process_env) "aws.s3" st)
    as [[[s3|e] st0]|] eqn:Hs3.
  - rewrite (example_action_run _ _ _ _ _ _ _ Hs3) in Hfirst.
    injection Hfirst as <- <-.
    pose proof (service_resolved_cached _ _ _ _ _ _ Hs3) as Hcached.
    assert (defined s3 = true) as Hdefined.
    { destruct fuel1 as [|fuel1].
      - simpl in Hs3. destruct (defined (js_get (cache st) "aws.s3")) eqn:Hd.
        + injection Hs3 as <- <-. exact Hd.
        + rewrite example_read_initiator in Hs3. discriminate.
      - destruct (example_service_s3 process_env fuel1 st)
          as (s3' & st' & Hs3' & Hd & _).
        rewrite Hs3 in Hs3'. injection Hs3' as -> _. exact Hd. }
    split.
    + apply example_action_run. rewrite <- Hcached.
      apply service_cached. rewrite Hcached. exact Hdefined.
    + eapply (service_invokes_once _ _ (λ _, 0)); [|exact Hs3].
      intros n init m Hinit Hreq. exfalso.
      unfold Example.container, Example.containerInitiator in Hinit.
      simpl in Hinit. apply lookup_singleton_Some in Hinit as [_ <-].
      inversion Hreq as [| | |k l m' Hreq']; subst. inversion Hreq'.
  - exfalso.
    unfold Example.action, Lambda.restApiProxy, catchM, Lambda.attempt,
      bindM, lift in Hfirst.
    destruct (createLambdaRequest_returns event1) as [request Hreq].
    rewrite Hreq in Hfirst. simpl in Hfirst. unfold settle in Hfirst.
    simpl in Hfirst. rewrite Hs3 in Hfirst. simpl in Hfirst.
    destruct fuel1 as [|fuel1]; simpl in Hs3;
      destruct (defined (js_get (cache st) "aws.s3")); try discriminate;
      rewrite example_read_initiator in Hs3; discriminate.
  - exfalso.
    unfold Example.action, Lambda.restApiProxy, catchM, Lambda.attempt,
      bindM, lift in Hfirst.
    destruct (createLambdaRequest_returns event1) as [request Hreq].
    rewrite Hreq in Hfirst. simpl in Hfirst. unfold settle in Hfirst.
    simpl in Hfirst. rewrite Hs3 in Hfirst. discriminate.
Qed.

End ExampleTheory.

(** * Runs on the concrete engine *)

#[local] Existing Instance Engine.node.

(** ** Container *)

Lemma s3_container_acyclic : acyclic Examples.s3_container (λ _, 0).
Proof.
  intros n init m Hinit Hreq. exfalso.
  unfold Examples.s3_container in Hinit. simpl in Hinit.
  apply lookup_singleton_Some in Hinit as [_ <-].
  inversion Hreq as [| | |k l m' Hreq']; subst.
  inversion Hreq'.
Qed.

Lemma service_twice_same_instance_witness :
  service (rt := Engine.node) 0 Examples.s3_container "aws.s3" Examples.s3_store
    = Some (Ok (VRef 0), Examples.s3_store)
  ∧ invocations "aws.s3" Examples.s3_store <= invocations "aws.s3" new_store + 1.
Proof.
  destruct (service_twice_same_instance (rt := Engine.node)
              Examples.s3_container "aws.s3" 1 0 new_store (VRef 0)
              Examples.s3_store) as [Hsecond Honce].
  - vm_compute. reflexivity.
  - reflexivity.
  - split; [exact Hsecond|]. exact (Honce _ s3_container_acyclic).
Defined.

(** The sentence of C1 as written fails when the initiator resolves to
    [undefined]: two calls in a row invoke it twice. *)
Lemma memoized_twice_fails_on_undefined :
  is_Some (initiator Examples.undefined_container !! "noop")
  ∧ ¬ memoized_twice (rt := Engine.node) Examples.undefined_container "noop" new_store.
Proof.
  split; [eexists; vm_compute; reflexivity|].
  intros Hclaim.
  destruct (Hclaim 1 1 (Ok VUndefined) Examples.noop_store (Ok VUndefined)
              {| cache := {[ "noop" := VUndefined ]}; next_ref := 0;
                 invoked := ["noop"; "noop"]; notified := [] |})
    as [Hcount _].
  - vm_compute. reflexivity.
  - vm_compute. reflexivity.
  - vm_compute in Hcount. lia.
Qed.

(** Even a call that resolves to an object may invoke the initiator of its
    own name twice, when initiators request each other in a cycle. *)
Example reentrant_initiator_runs_twice :
  ∃ st1,
    service (rt := Engine.node) 3 Examples.reentrant_container "a" new_store
      = Some (Ok (VRef 1), st1)
    ∧ invocations "a" st1 = 2.
Proof. eexists. split; vm_compute; reflexivity. Qed.

(** The sentence of C2 as written fails on a name that objects inherit:
    [service('toString')] on a new container, where the name has no entry
    in the initiator map and nothing is cached, resolves to
    [Object.prototype.toString]. *)
Lemma fails_without_entry_fails_on_inherited_name :
  initiator Examples.s3_container !! "toString" = None
  ∧ cache new_store !! "toString" = None
  ∧ service (rt := Engine.node) 0 Examples.s3_container "toString" new_store
    = Some (Ok (VInherited "toString"), new_store)
  ∧ ¬ fails_without_entry (rt := Engine.node) Examples.s3_container "toString"
        new_store.
Proof.
  split; [vm_compute; reflexivity|]. split; [reflexivity|].
  split; [vm_compute; reflexivity|].
  intros Hclaim. destruct (Hclaim eq_refl eq_refl 0) as (e & Hthrows & _).
  vm_compute in Hthrows. discriminate.
Qed.

Lemma service_without_initiator_witness :
  ∃ e : JsError,
    service (rt := Engine.node) 0 Examples.s3_container "missing" new_store
      = Some (Throw e, new_store)
    ∧ e_name e = "ContainerMissingServiceInitiatorError"%string
    ∧ e_message e =
        ("The service " ++ dquote ++ "missing" ++ dquote ++
         " has no initiator provided. Please provide an initiator for this service before calling it.")%string
    ∧ e_name e ≠ e_message e.
Proof.
  apply (service_without_initiator (rt := Engine.node)
           Examples.s3_container "missing" 0 new_store).
  - vm_compute. reflexivity.
  - reflexivity.
  - reflexivity.
Defined.

Lemma undefined_result_is_rebuilt_witness :
  js_get (cache Examples.noop_store) "noop" = VUndefined
  ∧ (∀ fuel2,
     service (rt := Engine.node) (S fuel2) Examples.undefined_container "noop"
         Examples.noop_store =
       match exec (service fuel2 Examples.undefined_container)
               Examples.undefined_container (Return VUndefined)
               (log_invoked "noop" Examples.noop_store) with
       | Some (Ok constructed, st') =>
           Some (Ok constructed, set_cache "noop" constructed st')
       | Some (Throw e, st') => Some (Throw e, st')
       | None => None
       end)
  ∧ (∀ fuel2 r st2,
       service (rt := Engine.node) fuel2 Examples.undefined_container "noop"
         Examples.noop_store = Some (r, st2) ->
       invocations "noop" Examples.noop_store < invocations "noop" st2).
Proof.
  apply (undefined_result_is_rebuilt (rt := Engine.node)
           Examples.undefined_container "noop" (Return VUndefined) 1 new_store
           Examples.noop_store).
  - vm_compute. reflexivity.
  - vm_compute. reflexivity.
Defined.

(** Three calls in a row on [{ noop: async () => undefined }] invoke the
    initiator three times. *)
Example undefined_initiator_runs_every_time :
  ∃ st1 st2 st3,
    service (rt := Engine.node) 1 Examples.undefined_container "noop" new_store
      = Some (Ok VUndefined, st1)
    ∧ service (rt := Engine.node) 1 Examples.undefined_container "noop" st1
      = Some (Ok VUndefined, st2)
    ∧ service (rt := Engine.node) 1 Examples.undefined_container "noop" st2
      = Some (Ok VUndefined, st3)
    ∧ invocations "noop" st3 = 3.
Proof. do 3 eexists. repeat split; vm_compute; reflexivity. Qed.

(** ** Decoder *)

Lemma body_parsed_under_json_content_type_witness :
  (∃ request,
     Lambda.createLambdaRequest
       (Examples.event Examples.text_headers (Some Examples.valid_json)) = Ok request
     ∧ Lambda.body request = JUndefined)
  ∧ (∃ request,
       Lambda_part001.createLambdaRequest
         (Examples.event Examples.text_headers (Some Examples.valid_json)) = Ok request
       ∧ Lambda_part001.body request = JObj [("a", JNum 1)]).
Proof.
  destruct body_parsed_under_json_content_type as (Hother & _ & Hpart001).
  split.
  - apply Hother. vm_compute. discriminate.
  - apply (Hpart001 _ Examples.valid_json).
    + reflexivity.
    + discriminate.
    + vm_compute. reflexivity.
Defined.

(** The sentence of C5 fails on the variant with [registerErrorHandler]: a
    [text/plain] event with the raw body [{"a":1}] is decoded to the parsed
    object, not to the default [{}]. *)
Lemma part001_parses_without_json_content_type :
  Event.headers (Examples.event Examples.text_headers (Some Examples.valid_json))
    !! "content-type" ≠ Some "application/json"%string
  ∧ ∃ request,
      Lambda_part001.createLambdaRequest
        (Examples.event Examples.text_headers (Some Examples.valid_json)) = Ok request
      ∧ Lambda_part001.body request = JObj [("a", JNum 1)]
      ∧ Lambda_part001.body request ≠ JObj []
      ∧ Lambda_part001.body request ≠ JUndefined.
Proof.
  split; [vm_compute; discriminate|].
  eexists. split; [vm_compute; reflexivity|].
  simpl. repeat split; discriminate.
Qed.

(** With the JSON content-type src/Lambda.ts does parse. *)
Example json_body_is_parsed :
  ∃ request,
    Lambda.createLambdaRequest
      (Examples.event Examples.json_headers (Some Examples.valid_json)) = Ok request
    ∧ Lambda.body request = JObj [("a", JNum 1)].
Proof. eexists. split; [vm_compute; reflexivity | reflexivity]. Qed.

Lemma malformed_body_is_swallowed_witness :
  (∃ request,
     Lambda.createLambdaRequest
       (Examples.event Examples.json_headers (Some "{not valid")) = Ok request
     ∧ Lambda.body request = JUndefined)
  ∧ (∃ request,
       Lambda_part001.createLambdaRequest
         (Examples.event Examples.json_headers (Some "{not valid")) = Ok request
       ∧ Lambda_part001.body request = JObj []).
Proof.
  apply (malformed_body_is_swallowed
           (Examples.event Examples.json_headers (Some "{not valid"))
           "{not valid" Engine.SyntaxError).
  - vm_compute. reflexivity.
  - reflexivity.
  - discriminate.
  - vm_compute. reflexivity.
Defined.

Lemma null_parameters_decode_empty_witness :
  (∃ request,
     Lambda.createLambdaRequest (Examples.event ∅ None) = Ok request
     ∧ Lambda.pathParameters request = ∅
     ∧ Lambda.queryStringParameters request = ∅)
  ∧ (∃ request,
       Lambda_part001.createLambdaRequest (Examples.event ∅ None) = Ok request
       ∧ Lambda_part001.params request = ∅
       ∧ Lambda_part001.query request = ∅).
Proof.
  destruct (null_parameters_decode_empty (Examples.event ∅ None))
    as [(r1 & H1 & Hp1 & Hq1) (r2 & H2 & Hp2 & Hq2)].
  split.
  - exists r1. split; [exact H1|]. split; [apply Hp1 | apply Hq1]; reflexivity.
  - exists r2. split; [exact H2|]. split; [apply Hp2 | apply Hq2]; reflexivity.
Defined.

(** ** Encoder *)

(** C6 at [{ status: 200, data: 'é' }]: the serialized body is the three code
    units of ["é"] in quotes, [content-length] is ["3"], and the body is four
    bytes long in UTF-8. *)
Theorem content_length_counts_code_units :
  ∃ wire,
    createLambdaProxyResponse {| status := OK; data := JStr Examples.e_acute |}
      = Ok wire
    ∧ body wire = (dquote ++ Examples.e_acute ++ dquote)%string
    ∧ headers wire !! "content-length" = Some "3"%string
    ∧ utf8_length (body wire) = 4.
Proof. eexists. split; [reflexivity|]. repeat split; vm_compute; reflexivity. Qed.

(** A payload that is [undefined] (a 204 with no data) makes the encoder
    throw instead. *)
Example no_content_response_throws :
  createLambdaProxyResponse {| status := NoContent; data := JUndefined |}
    = Throw TypeError_length_of_undefined.
Proof. reflexivity. Qed.

(** ** Wrapper *)

Lemma restApiProxy_answers_errors_with_500_witness :
  (∃ wire lines,
     Lambda.restApiProxy Examples.wrapper Examples.failing_handler 1
       (Examples.event ∅ None) Examples.context new_store = Some (Ok wire, new_store)
     ∧ statusCode wire = 500%Z
     ∧ headers wire !! "content-type" = Some "application/json"%string
     ∧ body wire
         = error_text (e_name Examples.boom) (e_message Examples.boom) lines
     ∧ stack_split (e_stack Examples.boom) lines
     ∧ (plain (e_message Examples.boom) ->
        includes (dquote ++ "message" ++ dquote ++ ":" ++
                  dquote ++ e_message Examples.boom ++ dquote)%string
          (body wire) = true))
  ∧ (∃ wire lines st'',
       Lambda_part001.restApiProxy Examples.wrapper_with_error_handler
         Examples.failing_handler 1
         (Examples.event ∅ None) Examples.context new_store = Some (Ok wire, st'')
       ∧ statusCode wire = 500%Z
       ∧ headers wire !! "content-type" = Some "application/json"%string
       ∧ body wire
           = error_text (e_name Examples.boom) (e_message Examples.boom) lines
       ∧ stack_split (e_stack Examples.boom) lines
       ∧ (plain (e_message Examples.boom) ->
          includes (dquote ++ "message" ++ dquote ++ ":" ++
                    dquote ++ e_message Examples.boom ++ dquote)%string
            (body wire) = true)).
Proof.
  destruct restApiProxy_answers_errors_with_500 as (Hsrc & Hpart001 & _).
  split.
  - eapply (Hsrc Examples.wrapper Examples.failing_handler 1
              (Examples.event ∅ None) Examples.context _ new_store
              Examples.boom new_store).
    + vm_compute. reflexivity.
    + vm_compute. reflexivity.
  - eapply (Hpart001 Examples.wrapper_with_error_handler Examples.failing_handler 1
              (Examples.event ∅ None) Examples.context _ new_store
              Examples.boom new_store).
    + vm_compute. reflexivity.
    + vm_compute. reflexivity.
Defined.

(** The sentence as written fails on [async () => { throw null; }]: the
    [catch] block reads [error.name] of [null], which throws a [TypeError],
    and the wrapper rejects with it. *)
Lemma every_throw_is_answered_fails_on_null :
  Lambda.restApiProxy Examples.wrapper Examples.null_handler 0
    (Examples.event ∅ None) Examples.context new_store
    = Some (Throw (TypeError_name_of_nullish true), new_store)
  ∧ ¬ every_throw_is_answered Examples.wrapper Examples.null_handler 0
        (Examples.event ∅ None) Examples.context new_store.
Proof.
  split; [vm_compute; reflexivity|].
  intros Hanswered.
  unfold every_throw_is_answered in Hanswered.
  edestruct Hanswered as (wire & st'' & Hrun & _).
  - reflexivity.
  - reflexivity.
  - vm_compute in Hrun. discriminate.
Qed.

(** The same wrapper answers a thrown string with a 500 without the name and
    the message, which [JSON.stringify] leaves out when they are
    [undefined]. *)
Example thrown_string_is_answered_with_500 :
  ∃ wire,
    Lambda.restApiProxy Examples.wrapper Examples.string_handler 0
      (Examples.event ∅ None) Examples.context new_store = Some (Ok wire, new_store)
    ∧ statusCode wire = 500%Z
    ∧ body wire = ("{" ++ dquote ++ "stack" ++ dquote ++ ":[]}")%string.
Proof. eexists. split; [vm_compute; reflexivity|]. split; reflexivity. Qed.

(** A handler that throws [Error("boom")]: status 500 and a body with
    ["message":"boom"]; the registered error handler has been told. *)
Example boom_is_answered_with_500 :
  ∃ wire st',
    Lambda_part001.restApiProxy Examples.wrapper_with_error_handler
      Examples.failing_handler 1
      (Examples.event ∅ None) Examples.context new_store = Some (Ok wire, st')
    ∧ statusCode wire = 500%Z
    ∧ includes (dquote ++ "message" ++ dquote ++ ":" ++ dquote ++ "boom" ++ dquote)%string
        (body wire) = true
    ∧ headers wire !! "content-type" = Some "application/json"%string
    ∧ notified st' = [ErrorObject Examples.boom].
Proof. do 2 eexists. split; [vm_compute; reflexivity|]. repeat split. Qed.

(** The end-to-end example: GET /x through a handler returning
    [{ status: 200, data: { ok: true } }]. *)
Example end_to_end :
  ∃ wire st',
    Lambda.restApiProxy Examples.wrapper Examples.ok_handler 1
      (Examples.event ∅ None) Examples.context new_store = Some (Ok wire, st')
    ∧ statusCode wire = 200%Z
    ∧ body wire = ("{" ++ dquote ++ "ok" ++ dquote ++ ":true}")%string
    ∧ headers wire = response_headers (body wire)
    ∧ headers wire !! "content-length" = Some "11"%string.
Proof. do 2 eexists. split; [vm_compute; reflexivity|]. repeat split. Qed.

(** C4 at a wrapper with a registered error handler and the handler
    [async () => { throw new Error('boom'); }]: [handle] rejects with the
    error, and the error handler has not been called. *)
Theorem handle_drops_async_rejection :
  Lambda_part001.errorHandler Examples.wrapper_with_error_handler ≠ None
  ∧ ∃ st',
      Lambda_part001.handle (E := string) (O := unit)
        Examples.wrapper_with_error_handler Examples.failing_handler 1
        "scheduled"%string Examples.context new_store
        = Some (Throw Examples.boom, st')
      ∧ notified st' = [].
Proof. split; [discriminate|]. eexists. split; reflexivity. Qed.

(** Only an error thrown by the call itself reaches the error handler. *)
Example handle_notifies_sync_throw :
  ∃ st',
    Lambda_part001.handle (E := string) (O := unit)
      Examples.wrapper_with_error_handler Examples.throwing_handler 1
      "scheduled"%string Examples.context new_store
      = Some (Throw Examples.boom, st')
    ∧ notified st' = [ErrorObject Examples.boom].
Proof. eexists. split; reflexivity. Qed.

Lemma restApiProxy_deterministic_witness :
  (∃ wire,
     Lambda.restApiProxy Examples.wrapper Examples.ok_handler 1
       (Examples.event ∅ None) Examples.context new_store
       = Some (Ok wire, Examples.s3_store)
     ∧ Lambda.restApiProxy Examples.wrapper Examples.ok_handler 0
         (Examples.event ∅ None) Examples.context Examples.s3_store
         = Some (Ok wire, Examples.s3_store))
  ∧ (∃ wire st1'' st2'',
       Lambda_part001.restApiProxy Examples.wrapper_with_error_handler
         Examples.ok_handler 1
         (Examples.event ∅ None) Examples.context new_store = Some (Ok wire, st1'')
       ∧ Lambda_part001.restApiProxy Examples.wrapper_with_error_handler
           Examples.ok_handler 0
           (Examples.event ∅ None) Examples.context Examples.s3_store
           = Some (Ok wire, st2'')).
Proof.
  destruct restApiProxy_deterministic as [Hsrc Hpart001].
  split.
  - edestruct Hsrc
      with (w := Examples.wrapper)
           (handler := Examples.ok_handler (E := Lambda.LambdaRequest))
           (event := Examples.event ∅ None) (context := Examples.context)
           (fuel1 := 1) (fuel2 := 0) (st1 := new_store) (st2 := Examples.s3_store)
           (outcome := Ok {| status := OK; data := JObj [("ok", JBool true)] |})
      as (answer & Hfirst & Hsecond & Hanswer).
    + vm_compute. reflexivity.
    + vm_compute. reflexivity.
    + vm_compute. reflexivity.
    + destruct Hanswer as [wire ->]; [discriminate | discriminate |].
      exists wire. split; assumption.
  - edestruct Hpart001
      with (w := Examples.wrapper_with_error_handler)
           (handler := Examples.ok_handler (E := Lambda_part001.LambdaRequest))
           (event := Examples.event ∅ None) (context := Examples.context)
           (fuel1 := 1) (fuel2 := 0) (st1 := new_store) (st2 := Examples.s3_store)
           (outcome := Ok {| status := OK; data := JObj [("ok", JBool true)] |})
      as (answer & st1'' & st2'' & Hfirst & Hsecond & Hanswer).
    + vm_compute. reflexivity.
    + vm_compute. reflexivity.
    + vm_compute. reflexivity.
    + destruct Hanswer as [wire ->]; [discriminate | discriminate |].
      exists wire, st1'', st2''. split; assumption.
Defined.

(** * Runs for the further properties *)

Lemma failing_container_acyclic : acyclic Examples.failing_container (λ _, 0).
Proof.
  intros n init m Hinit Hreq. exfalso.
  unfold Examples.failing_container in Hinit. simpl in Hinit.
  apply lookup_singleton_Some in Hinit as [_ <-]. inversion Hreq.
Qed.

Lemma Environment_get_spec_witness :
  Environment_get (Environment_create Examples.process_env) "MY_S3_BUCKET"
    = Ok (VStr "my-s3-bucket")
  ∧ Environment_get (Environment_create Examples.process_env) "toString"
      = Ok (VInherited "toString")
  ∧ ∃ e : JsError,
      Environment_get (Environment_create Examples.process_env) "LOG_LEVEL" = Throw e
      ∧ e_name e = "MissingEnvironmentVariableError"%string
      ∧ e_message e =
          ("Cannot find " ++ dquote ++ "LOG_LEVEL" ++ dquote ++ " in the environment!")%string
      ∧ e_error e = Some (e_message e).
Proof.
  split; [|split].
  - apply (proj1 (Environment_get_spec Examples.process_env "MY_S3_BUCKET")).
    + vm_compute. reflexivity.
    + discriminate.
  - apply (proj1 (proj2 (Environment_get_spec Examples.process_env "toString"))).
    + vm_compute. reflexivity.
    + vm_compute. reflexivity.
  - apply (proj2 (proj2 (Environment_get_spec Examples.process_env "LOG_LEVEL"))).
    right. split; vm_compute; reflexivity.
Defined.

Lemma service_keeps_instances_witness :
  keeps_instances Examples.store_a Examples.store_ab.
Proof.
  apply (service_keeps_instances 1 Examples.two_container "b"
           Examples.store_a (Ok (VRef 1)) Examples.store_ab).
  vm_compute. reflexivity.
Defined.

Lemma service_instance_is_kept_witness :
  service 0 Examples.two_container "a" Examples.store_ab
    = Some (Ok (VRef 0), Examples.store_ab).
Proof.
  apply (service_instance_is_kept Examples.two_container "a" 1 0 [(1, "b"%string)]
           new_store (VRef 0) Examples.store_a Examples.store_ab).
  - vm_compute. reflexivity.
  - reflexivity.
  - vm_compute. reflexivity.
Defined.

(** Inside one call an instance can be replaced: the request that the
    initiator of [a] makes for [a] itself resolves to a second object and
    caches it, and when the outer call settles the first object is cached in
    its place. *)
Example nested_instance_is_replaced :
  ∃ st_nested st',
    service 2 Examples.swap_container "a"
      (snd (alloc (log_invoked "a" new_store))) = Some (Ok (VRef 1), st_nested)
    ∧ js_get (cache st_nested) "a" = VRef 1
    ∧ service 3 Examples.swap_container "a" new_store = Some (Ok (VRef 0), st')
    ∧ js_get (cache st') "a" = VRef 0
    ∧ ¬ keeps_instances st_nested st'.
Proof.
  do 2 eexists. split; [vm_compute; reflexivity|].
  split; [vm_compute; reflexivity|]. split; [vm_compute; reflexivity|].
  split; [vm_compute; reflexivity|].
  intros Hkept. specialize (Hkept "a"%string). vm_compute in Hkept.
  specialize (Hkept eq_refl). discriminate.
Qed.

Lemma service_writes_only_built_names_witness :
  cache Examples.store_ab !! "a" = cache Examples.store_a !! "a".
Proof.
  apply (service_writes_only_built_names 1 Examples.two_container "b"
           Examples.store_a (Ok (VRef 1)) Examples.store_ab).
  - vm_compute. reflexivity.
  - vm_compute. reflexivity.
Defined.

Lemma service_rejection_not_cached_witness :
  cache (log_invoked "db" new_store) !! "db" = cache new_store !! "db".
Proof.
  apply (service_rejection_not_cached 1 Examples.failing_container (λ _, 0) "db"
           new_store Examples.boom (log_invoked "db" new_store)).
  - exact failing_container_acyclic.
  - vm_compute. reflexivity.
Defined.

Lemma s3_container_settling n init :
  initiator Examples.s3_container !! n = Some init -> ¬ stalls init.
Proof.
  unfold Examples.s3_container. simpl. intros Hinit Hstalls.
  apply lookup_singleton_Some in Hinit as [_ <-].
  inversion Hstalls as [| | |k l Hrest]; subst.
  inversion Hrest.
Qed.

Lemma service_settles_when_acyclic_witness :
  ∃ r st', service 1 Examples.s3_container "aws.s3" new_store = Some (r, st').
Proof.
  apply (service_settles_when_acyclic Examples.s3_container (λ _, 0)).
  - exact s3_container_acyclic.
  - exact s3_container_settling.
  - lia.
Defined.

(** ** Encoder and decoder *)


Lemma empty_body_is_default_witness :
  (∃ request,
     Lambda.createLambdaRequest
       (Examples.event Examples.json_headers (Some EmptyString)) = Ok request
     ∧ Lambda.body request = JUndefined)
  ∧ (∃ request,
       Lambda_part001.createLambdaRequest
         (Examples.event Examples.json_headers (Some EmptyString)) = Ok request
       ∧ Lambda_part001.body request = JObj []).
Proof.
  apply (empty_body_is_default
           (Examples.event Examples.json_headers (Some EmptyString))).
  right. reflexivity.
Defined.

Lemma request_fields_are_copied_witness :
  ∃ request,
    Lambda_part001.createLambdaRequest
      (Examples.event Examples.json_headers (Some Examples.valid_json)) = Ok request
    ∧ Lambda_part001.id request = "r-1"%string
    ∧ Lambda_part001.stage request = "dev"%string
    ∧ Lambda_part001.method request = "GET"%string
    ∧ Lambda_part001.path request = "/x"%string
    ∧ Lambda_part001.headers request = Examples.json_headers
    ∧ Lambda_part001.params request = ∅
    ∧ Lambda_part001.query request = ∅.
Proof.
  destruct (createLambdaRequest_part001_returns
              (Examples.event Examples.json_headers (Some Examples.valid_json)))
    as [request Hreq].
  exists request. split; [exact Hreq|].
  exact (proj2 (request_fields_are_copied
                  (Examples.event Examples.json_headers (Some Examples.valid_json)))
           request Hreq).
Defined.

(** ** Wrapper *)


Lemma restApiProxy_undefined_payload_is_500_witness :
  Lambda.restApiProxy Examples.wrapper Examples.no_content_handler 0
    (Examples.event ∅ None) Examples.context new_store
    = Some (Ok (error_wire TypeError_length_of_undefined), new_store).
Proof.
  destruct restApiProxy_undefined_payload_is_500 as [Hsrc _].
  eapply (Hsrc Examples.wrapper Examples.no_content_handler 0
            (Examples.event ∅ None) Examples.context _ new_store
            {| status := NoContent; data := JUndefined |} new_store).
  - vm_compute. reflexivity.
  - reflexivity.
  - reflexivity.
Defined.


Lemma handle_part001_outcomes_witness :
  (∃ st',
     Lambda_part001.handle (E := string) (O := unit)
       Examples.wrapper_with_error_handler Examples.throwing_handler 1
       "scheduled"%string Examples.context new_store
       = Some (Throw Examples.boom, st')
     ∧ notified st' = [ErrorObject Examples.boom])
  ∧ (Lambda_part001.handle (E := string) (O := unit)
       Examples.wrapper_with_error_handler Examples.failing_handler 1
       "scheduled"%string Examples.context new_store
       = Some (Throw Examples.boom, new_store)
     ∧ notified new_store = notified new_store).
Proof.
  split.
  - apply (proj1 (handle_part001_outcomes (E := string) (O := unit)
                    Examples.wrapper_with_error_handler Examples.throwing_handler 1
                    "scheduled"%string Examples.context new_store)).
    reflexivity.
  - apply (proj2 (handle_part001_outcomes (E := string) (O := unit)
                    Examples.wrapper_with_error_handler Examples.failing_handler 1
                    "scheduled"%string Examples.context new_store)
             (Raise Examples.boom)).
    + reflexivity.
    + reflexivity.
Defined.

(** ** The example handler *)

Lemma example_missing_bucket_witness :
  ∃ wire st1,
    Example.action Examples.sdk ∅ 1 (Examples.event ∅ None) Examples.context new_store
      = Some (Ok wire, st1)
    ∧ statusCode wire = 500%Z
    ∧ body wire = error_body (MissingEnvironmentVariableError "MY_S3_BUCKET")
    ∧ defined (js_get (cache st1) "aws.s3") = true.
Proof.
  apply (example_missing_bucket Examples.sdk ∅ 0 (Examples.event ∅ None)
           Examples.context new_store).
  reflexivity.
Defined.

Lemma example_success_witness :
  ∃ json st1,
    JSON_stringify (JObj [("upload_url", JStr "https://my-s3-bucket.s3.amazonaws.com/")])
      = Some json
    ∧ Example.action Examples.sdk Examples.process_env 1 (Examples.event ∅ None)
        Examples.context new_store
      = Some (Ok {| statusCode := 200;
                    headers := response_headers json;
                    body := json |}, st1).
Proof.
  apply (example_success Examples.sdk Examples.process_env (VStr "my-s3-bucket")).
  - vm_compute. reflexivity.
  - discriminate.
  - intros s3. reflexivity.
Defined.

Lemma example_client_is_reused_witness :
  ∃ r1,
    Example.action Examples.sdk Examples.process_env 1 (Examples.event ∅ None)
      Examples.context new_store = Some (r1, Examples.s3_store)
    ∧ Example.action Examples.sdk Examples.process_env 0
        (Examples.event Examples.json_headers (Some Examples.valid_json))
        Examples.context Examples.s3_store = Some (r1, Examples.s3_store)
    ∧ invocations "aws.s3" Examples.s3_store <= invocations "aws.s3" new_store + 1.
Proof.
  eexists. split; [vm_compute; reflexivity|].
  eapply (example_client_is_reused Examples.sdk Examples.process_env 1 0
            (Examples.event ∅ None) Examples.context).
  vm_compute. reflexivity.
Defined.
